(** * terraform-provider-kind: the cluster resource

    A shallow embedding of [internal/provider/cluster_resource.go] (and of the
    model structs of package [provider]) together with the properties of the
    configuration synthesizer, the credential extraction, the readiness gate,
    the lock recovery and the [Create] operation.

    Conventions.
    - Go [string] is [string]; [int64] and [time.Duration] are [Z] with the
      wrap-around written out where the code computes; [[]T] is [list T]
      (a nil slice and an empty slice are both [[]]); [map[string]T] is
      [gmap string T] (a nil map and an empty map are both [∅]); a pointer
      that may be nil is an [option].
    - The values of the plugin framework ([types.String], [types.List], ...)
      carry their three states: null, unknown, known.
    - Calls that leave the process (the kind backend, the file system, the
      clock, the node-status endpoint, Go's [select]) read their answers from
      an explicit environment; those that change something outside, and the
      queries to the backend and to the status endpoint, are recorded in a
      call log. *)

From Stdlib Require Import ZArith Lia.
From stdpp Require Import base option list strings pretty gmap.

Local Open Scope Z_scope.

(** ** Package [types] of the plugin framework *)

Module types.

(** [types.String]: its zero value is the null state. *)
Inductive String : Type :=
| StringNull
| StringUnknown
| StringValue (s : string).

Inductive Bool : Type :=
| BoolNull
| BoolUnknown
| BoolValue (b : bool).

Inductive Int64 : Type :=
| Int64Null
| Int64Unknown
| Int64Value (i : Z).

(** [attr.Value], restricted to the element types the schema uses. *)
Inductive Value : Type :=
| VString (v : String)
| VBool (v : Bool)
| VInt64 (v : Int64).

Inductive List : Type :=
| ListNull
| ListUnknown
| ListValue (elems : list Value).

Inductive Map : Type :=
| MapNull
| MapUnknown
| MapValue (elems : gmap string Value).

Definition String_IsNull (v : String) : bool :=
  match v with StringNull => true | _ => false end.

(** [ValueString] is the empty string for null and unknown. *)
Definition ValueString (v : String) : string :=
  match v with StringValue s => s | _ => "" end.

Definition Bool_IsNull (v : Bool) : bool :=
  match v with BoolNull => true | _ => false end.

Definition ValueBool (v : Bool) : bool :=
  match v with BoolValue b => b | _ => false end.

Definition Int64_IsNull (v : Int64) : bool :=
  match v with Int64Null => true | _ => false end.

Definition ValueInt64 (v : Int64) : Z :=
  match v with Int64Value i => i | _ => 0 end.

Definition List_IsNull (v : List) : bool :=
  match v with ListNull => true | _ => false end.

Definition List_Elements (v : List) : list Value :=
  match v with ListValue l => l | _ => [] end.

Definition Map_IsNull (v : Map) : bool :=
  match v with MapNull => true | _ => false end.

Definition Map_Elements (v : Map) : gmap string Value :=
  match v with MapValue m => m | _ => ∅ end.

(** The type assertions [v.(types.String)] and [v.(types.Bool)]. *)
Definition asString (v : Value) : option String :=
  match v with VString s => Some s | _ => None end.

Definition asBool (v : Value) : option Bool :=
  match v with VBool b => Some b | _ => None end.

End types.

(** ** Package [v1alpha4] of kind: the backend's typed configuration

    The enumerations are typed strings, as in Go. *)

Module v1alpha4.

Definition NodeRole := string.
Definition ControlPlaneRole : NodeRole := "control-plane".
Definition WorkerRole : NodeRole := "worker".

Definition ClusterIPFamily := string.
Definition IPv4Family : ClusterIPFamily := "ipv4".
Definition IPv6Family : ClusterIPFamily := "ipv6".
Definition DualStackFamily : ClusterIPFamily := "dual".

Definition ProxyMode := string.
Definition IPTablesProxyMode : ProxyMode := "iptables".
Definition IPVSProxyMode : ProxyMode := "ipvs".
Definition NFTablesProxyMode : ProxyMode := "nftables".

Definition MountPropagation := string.
Definition MountPropagationNone : MountPropagation := "None".
Definition MountPropagationHostToContainer : MountPropagation := "HostToContainer".
Definition MountPropagationBidirectional : MountPropagation := "Bidirectional".

Definition PortMappingProtocol := string.
Definition PortMappingProtocolTCP : PortMappingProtocol := "TCP".
Definition PortMappingProtocolUDP : PortMappingProtocol := "UDP".
Definition PortMappingProtocolSCTP : PortMappingProtocol := "SCTP".

Module PatchJSON6902.
Record t : Type := Build {
  Group : string;
  Version : string;
  Kind : string;
  Patch : string
}.
End PatchJSON6902.

Module Mount.
Record t : Type := Build {
  ContainerPath : string;
  HostPath : string;
  Readonly : bool;
  SelinuxRelabel : bool;
  Propagation : MountPropagation
}.
End Mount.

Module PortMapping.
Record t : Type := Build {
  ContainerPort : Z;
  HostPort : Z;
  ListenAddress : string;
  Protocol : PortMappingProtocol
}.
End PortMapping.

Module Node.
Record t : Type := Build {
  Role : NodeRole;
  Image : string;
  Labels : gmap string string;
  ExtraMounts : list Mount.t;
  ExtraPortMappings : list PortMapping.t;
  KubeadmConfigPatches : list string;
  KubeadmConfigPatchesJSON6902 : list PatchJSON6902.t
}.

(** The composite literal [v1alpha4.Node{Role: r}]. *)
Definition ofRole (r : NodeRole) : t :=
  Build r "" ∅ [] [] [] [].
End Node.

Module Networking.
Record t : Type := Build {
  IPFamily : ClusterIPFamily;
  APIServerPort : Z;
  APIServerAddress : string;
  PodSubnet : string;
  ServiceSubnet : string;
  DisableDefaultCNI : bool;
  KubeProxyMode : ProxyMode;
  DNSSearch : option (list string)
}.

(** The zero value [v1alpha4.Networking{}]. *)
Definition zero : t := Build "" 0 "" "" "" false "" None.
End Networking.

Module Cluster.
Record t : Type := Build {
  Kind : string;
  APIVersion : string;
  Name : string;
  Nodes : list Node.t;
  Networking : Networking.t;
  FeatureGates : gmap string bool;
  RuntimeConfig : gmap string string;
  KubeadmConfigPatches : list string;
  KubeadmConfigPatchesJSON6902 : list PatchJSON6902.t;
  ContainerdConfigPatches : list string;
  ContainerdConfigPatchesJSON6902 : list string
}.
End Cluster.

End v1alpha4.

(** ** Package [provider]: the declarative model *)

Module PatchJSON6902Model.
Record t : Type := Build {
  Group : types.String;
  Version : types.String;
  Kind : types.String;
  Patch : types.String
}.
End PatchJSON6902Model.

Module MountModel.
Record t : Type := Build {
  HostPath : types.String;
  ContainerPath : types.String;
  ReadOnly : types.Bool;
  SelinuxRelabel : types.Bool;
  Propagation : types.String
}.
End MountModel.

Module PortMappingModel.
Record t : Type := Build {
  ContainerPort : types.Int64;
  HostPort : types.Int64;
  ListenAddress : types.String;
  Protocol : types.String
}.
End PortMappingModel.

Module NodeModel.
Record t : Type := Build {
  Role : types.String;
  Image : types.String;
  Labels : types.Map;
  ExtraMounts : list MountModel.t;
  ExtraPortMappings : list PortMappingModel.t;
  KubeadmConfigPatches : types.List;
  KubeadmConfigPatchesJSON6902 : list PatchJSON6902Model.t
}.
End NodeModel.

Module NetworkingModel.
Record t : Type := Build {
  IPFamily : types.String;
  APIServerPort : types.Int64;
  APIServerAddress : types.String;
  PodSubnet : types.String;
  ServiceSubnet : types.String;
  DisableDefaultCNI : types.Bool;
  KubeProxyMode : types.String;
  DNSSearch : types.List
}.
End NetworkingModel.

(** [WaitForNodesReady] is the [wait_for_nodes_ready] attribute of the schema,
    read by [Create] as a [types.Bool]. *)
Module ClusterResourceModel.
Record t : Type := Build {
  ID : types.String;
  Name : types.String;
  NodeImage : types.String;
  WaitForReady : types.Int64;
  WaitForNodesReady : types.Bool;
  Networking : option NetworkingModel.t;
  FeatureGates : types.Map;
  RuntimeConfig : types.Map;
  KubeadmConfigPatches : types.List;
  KubeadmConfigPatchesJSON6902 : list PatchJSON6902Model.t;
  ContainerdConfigPatches : types.List;
  ContainerdConfigPatchesJSON6902 : types.List;
  Kubeconfig : types.String;
  KubeconfigPath : types.String;
  ClientCertificate : types.String;
  ClientKey : types.String;
  ClusterCaCertificate : types.String;
  Endpoint : types.String;
  Nodes : list NodeModel.t
}.
End ClusterResourceModel.

(** ** The configuration synthesizer *)

(** The conversion [int32(x)] of an [int64]. *)
Definition int32 (x : Z) : Z := (x + 2 ^ 31) `mod` 2 ^ 32 - 2 ^ 31.

(** The loop shared by every list-of-strings attribute:
    [[
      for _, elem := range l.Elements() {
        if strVal, ok := elem.(types.String); ok && !strVal.IsNull() {
          out = append(out, strVal.ValueString())
        }
      }
    ]] *)
Definition appendString (elem : types.Value) : option string :=
  match types.asString elem with
  | Some strVal =>
      if negb (types.String_IsNull strVal) then Some (types.ValueString strVal)
      else None
  | None => None
  end.

Definition collectStrings (elems : list types.Value) : list string :=
  omap appendString elems.

(** A list attribute is copied only when it is not null and has elements. *)
Definition stringList (l : types.List) : list string :=
  if negb (types.List_IsNull l) && (0 <? length (types.List_Elements l))%nat
  then collectStrings (types.List_Elements l)
  else [].

Definition buildPatchJSON6902 (p : PatchJSON6902Model.t) : v1alpha4.PatchJSON6902.t :=
  v1alpha4.PatchJSON6902.Build
    (types.ValueString (PatchJSON6902Model.Group p))
    (types.ValueString (PatchJSON6902Model.Version p))
    (types.ValueString (PatchJSON6902Model.Kind p))
    (types.ValueString (PatchJSON6902Model.Patch p)).

Definition buildMount (mount : MountModel.t) : v1alpha4.Mount.t :=
  v1alpha4.Mount.Build
    (types.ValueString (MountModel.ContainerPath mount))
    (types.ValueString (MountModel.HostPath mount))
    (types.ValueBool (MountModel.ReadOnly mount))
    (types.ValueBool (MountModel.SelinuxRelabel mount))
    (if negb (types.String_IsNull (MountModel.Propagation mount))
     then types.ValueString (MountModel.Propagation mount)
     else "").

Definition buildPortMapping (pm : PortMappingModel.t) : v1alpha4.PortMapping.t :=
  v1alpha4.PortMapping.Build
    (int32 (types.ValueInt64 (PortMappingModel.ContainerPort pm)))
    (int32 (types.ValueInt64 (PortMappingModel.HostPort pm)))
    (if negb (types.String_IsNull (PortMappingModel.ListenAddress pm))
     then types.ValueString (PortMappingModel.ListenAddress pm)
     else "")
    (if negb (types.String_IsNull (PortMappingModel.Protocol pm))
     then types.ValueString (PortMappingModel.Protocol pm)
     else "").

(** The [switch] on the role: two cases and no default. *)
Definition switchRole (s : string) : v1alpha4.NodeRole :=
  if String.eqb s "control-plane" then v1alpha4.ControlPlaneRole
  else if String.eqb s "worker" then v1alpha4.WorkerRole
  else "".

(** [labels[k] = strVal.ValueString()] for every element that is a string. *)
Definition buildLabels (m : types.Map) : gmap string string :=
  if negb (types.Map_IsNull m)
  then omap (fun v => types.ValueString <$> types.asString v) (types.Map_Elements m)
  else ∅.

Definition buildNodeConfig (node : NodeModel.t) : v1alpha4.Node.t :=
  v1alpha4.Node.Build
    (if negb (types.String_IsNull (NodeModel.Role node))
     then switchRole (types.ValueString (NodeModel.Role node))
     else "")
    (if negb (types.String_IsNull (NodeModel.Image node))
        && negb (String.eqb (types.ValueString (NodeModel.Image node)) "")
     then types.ValueString (NodeModel.Image node)
     else "")
    (buildLabels (NodeModel.Labels node))
    (map buildMount (NodeModel.ExtraMounts node))
    (map buildPortMapping (NodeModel.ExtraPortMappings node))
    (stringList (NodeModel.KubeadmConfigPatches node))
    (map buildPatchJSON6902 (NodeModel.KubeadmConfigPatchesJSON6902 node)).

(** A string field copied when it is neither null nor empty. *)
Definition nonEmptyString (v : types.String) : string :=
  if negb (types.String_IsNull v) && negb (String.eqb (types.ValueString v) "")
  then types.ValueString v
  else "".

Definition buildNetworkingConfig (net : NetworkingModel.t) : v1alpha4.Networking.t :=
  v1alpha4.Networking.Build
    (nonEmptyString (NetworkingModel.IPFamily net))
    (if negb (types.Int64_IsNull (NetworkingModel.APIServerPort net))
     then int32 (types.ValueInt64 (NetworkingModel.APIServerPort net))
     else 0)
    (nonEmptyString (NetworkingModel.APIServerAddress net))
    (nonEmptyString (NetworkingModel.PodSubnet net))
    (nonEmptyString (NetworkingModel.ServiceSubnet net))
    (if negb (types.Bool_IsNull (NetworkingModel.DisableDefaultCNI net))
     then types.ValueBool (NetworkingModel.DisableDefaultCNI net)
     else false)
    (nonEmptyString (NetworkingModel.KubeProxyMode net))
    (if negb (types.List_IsNull (NetworkingModel.DNSSearch net))
        && (0 <? length (types.List_Elements (NetworkingModel.DNSSearch net)))%nat
     then Some (collectStrings (types.List_Elements (NetworkingModel.DNSSearch net)))
     else None).

(** [featureGates[k] = boolVal.ValueBool()] for every non-null bool element. *)
Definition buildFeatureGates (m : types.Map) : gmap string bool :=
  if negb (types.Map_IsNull m) && (0 <? size (types.Map_Elements m))%nat
  then omap (fun v => match types.asBool v with
                      | Some boolVal =>
                          if negb (types.Bool_IsNull boolVal)
                          then Some (types.ValueBool boolVal) else None
                      | None => None
                      end) (types.Map_Elements m)
  else ∅.

Definition buildRuntimeConfig (m : types.Map) : gmap string string :=
  if negb (types.Map_IsNull m) && (0 <? size (types.Map_Elements m))%nat
  then omap appendString (types.Map_Elements m)
  else ∅.

(** The default topology of the [else] branch. *)
Definition defaultNodes : list v1alpha4.Node.t :=
  [ v1alpha4.Node.ofRole v1alpha4.ControlPlaneRole;
    v1alpha4.Node.ofRole v1alpha4.WorkerRole ].

Definition buildNodes (nodes : list NodeModel.t) : list v1alpha4.Node.t :=
  if (0 <? length nodes)%nat then map buildNodeConfig nodes else defaultNodes.

Definition buildClusterConfig (data : ClusterResourceModel.t) : v1alpha4.Cluster.t :=
  v1alpha4.Cluster.Build
    "Cluster"
    "kind.x-k8s.io/v1alpha4"
    (types.ValueString (ClusterResourceModel.Name data))
    (buildNodes (ClusterResourceModel.Nodes data))
    (match ClusterResourceModel.Networking data with
     | Some net => buildNetworkingConfig net
     | None => v1alpha4.Networking.zero
     end)
    (buildFeatureGates (ClusterResourceModel.FeatureGates data))
    (buildRuntimeConfig (ClusterResourceModel.RuntimeConfig data))
    (stringList (ClusterResourceModel.KubeadmConfigPatches data))
    (map buildPatchJSON6902 (ClusterResourceModel.KubeadmConfigPatchesJSON6902 data))
    (stringList (ClusterResourceModel.ContainerdConfigPatches data))
    (stringList (ClusterResourceModel.ContainerdConfigPatchesJSON6902 data)).


(** ** Errors and diagnostics *)

(** A Go [error], by the way it was made. *)
Inductive error : Type :=
| errorString (msg : string)
    (** an error returned by a callee outside this package, or [ctx.Err()] *)
| wrapError (prefix : string) (err : error)
    (** [fmt.Errorf(prefix + ": %w", err)] *)
| timeoutError (timeout : Z)
    (** [fmt.Errorf("timeout waiting for nodes to be ready after %v", timeout)] *).

Inductive Result (A : Type) : Type :=
| Ok (a : A)
| Err (e : error).
Arguments Ok {A} a.
Arguments Err {A} e.

Module diag.

Inductive Severity : Type := SeverityError | SeverityWarning.

Record Diagnostic : Type := Build {
  severity : Severity;
  Summary : string;
  Detail : string
}.

#[global] Instance Severity_eq_dec : EqDecision Severity.
Proof. solve_decision. Defined.

#[global] Instance Diagnostic_eq_dec : EqDecision Diagnostic.
Proof. solve_decision. Defined.

Definition Diagnostics := list Diagnostic.

Definition isError (d : Diagnostic) : bool :=
  match severity d with SeverityError => true | SeverityWarning => false end.

Definition HasError (ds : Diagnostics) : bool := existsb isError ds.

Definition Contains (ds : Diagnostics) (d : Diagnostic) : bool :=
  bool_decide (d ∈ ds).

(** [Append] skips a diagnostic the collection already holds. *)
Definition Append (ds : Diagnostics) (new : list Diagnostic) : Diagnostics :=
  foldl (fun acc d => if Contains acc d then acc else acc ++ [d]) ds new.

Definition AddError (ds : Diagnostics) (summary detail : string) : Diagnostics :=
  Append ds [Build SeverityError summary detail].

End diag.

(** ** Durations *)

(** [time.Duration] is an [int64] count of nanoseconds. *)
Definition int64 (x : Z) : Z := (x + 2 ^ 63) `mod` 2 ^ 64 - 2 ^ 63.

Definition Second : Z := 1000000000.

(** [time.Duration(x) * time.Second]. *)
Definition seconds (x : Z) : Z := int64 (x * Second).

Definition maxDuration : Z := 2 ^ 63 - 1.
Definition minDuration : Z := - 2 ^ 63.

(** ** The documents [yaml.Unmarshal] produces *)

(** An [interface{}] of a decoded document; numbers are never read by this
    package and are kept as integers. *)
#[warnings="-register-all"] Inductive iface : Type :=
| INil
| IString (s : string)
| INumber (n : Z)
| IBool (b : bool)
| ISlice (l : list iface)
| IMap (m : gmap string iface).

(** [m[k]]: a missing key gives the nil interface. *)
Definition mapIndex (m : gmap string iface) (k : string) : iface :=
  default INil (m !! k).

Definition asSlice (v : iface) : option (list iface) :=
  match v with ISlice l => Some l | _ => None end.

Definition asMap (v : iface) : option (gmap string iface) :=
  match v with IMap m => Some m | _ => None end.

Definition asStr (v : iface) : option string :=
  match v with IString s => Some s | _ => None end.

(** The nested lookups
    [[
      if l, ok := doc[section].([]interface{}); ok && len(l) > 0 {
        if entry, ok := l[0].(map[string]interface{}); ok {
          if info, ok := entry[key].(map[string]interface{}); ok { ... }
    ]] *)
Definition firstEntry (doc : gmap string iface) (section key : string)
  : option (gmap string iface) :=
  l ← asSlice (mapIndex doc section);
  first ← head l;
  entry ← asMap first;
  asMap (mapIndex entry key).

(** [if s, ok := info[key].(string); ok { field = types.StringValue(s) }] *)
Definition extractString (info : option (gmap string iface)) (key : string)
    (field : types.String) : types.String :=
  match info ≫= (fun m => asStr (mapIndex m key)) with
  | Some s => types.StringValue s
  | None => field
  end.

(** [if field.IsNull() { field = types.StringValue("") }] *)
Definition emptyIfNull (field : types.String) : types.String :=
  if types.String_IsNull field then types.StringValue "" else field.

(** ** The node-status endpoint *)

Module corev1.

Definition NodeReady : string := "Ready".
Definition ConditionTrue : string := "True".

Record NodeCondition : Type := BuildCondition {
  Type_ : string;
  Status : string
}.

Record Node : Type := BuildNode {
  Name : string;
  Conditions : list NodeCondition
}.

End corev1.

(** ** The world outside the process *)

Inductive CreateOption : Type :=
| CreateWithV1Alpha4Config (cfg : v1alpha4.Cluster.t)
| CreateWithWaitForReady (d : Z)
| CreateWithDisplayUsage (b : bool)
| CreateWithDisplaySalutation (b : bool)
| CreateWithNodeImage (image : string).

(** The calls that change something outside the process, or query the
    backend, are logged in the order they are made. *)
Inductive Call : Type :=
| CallRemove (path : string)
| CallProviderCreate (name : string) (opts : list CreateOption)
| CallProviderDelete (name : string) (explicitKubeconfigPath : string)
| CallProviderKubeConfig (name : string) (internal : bool)
| CallNodesList (k : nat).

Definition isRemove (c : Call) : Prop :=
  match c with CallRemove _ => True | _ => False end.

Definition isDelete (c : Call) : Prop :=
  match c with CallProviderDelete _ _ => True | _ => False end.

(** The three channels of the [select] of the readiness gate. *)
Inductive SelectCase : Type :=
| CtxDone
| TimeoutCh
| TickerC.

#[global] Instance SelectCase_eq_dec : EqDecision SelectCase.
Proof. solve_decision. Defined.

(** What the readiness gate meets: the outcome of each set-up call, the
    instant (in nanoseconds after the ticker is started) at which the
    caller's context is cancelled, the answer of the status endpoint to the
    k-th poll, and the choice Go's [select] makes among several ready
    channels. *)
Record GateEnv : Type := BuildGateEnv {
  createTempErr : option error;
  writeStringErr : string -> option error;
  closeErr : option error;
  buildConfigErr : string -> option error;
  newForConfigErr : option error;
  ctxDoneAt : option Z;
  ctxErr : string;
  nodesList : nat -> Result (list corev1.Node);
  selectPick : nat -> list SelectCase -> SelectCase
}.

Record World : Type := BuildWorld {
  UserHomeDir : Result string;
  files : gmap string Z;           (** modification time of each file *)
  statErr : string -> option error;
  removeErr : string -> option error;
  now : Z;
  providerCreate : string -> list CreateOption -> option error;
  providerDelete : string -> string -> option error;
  providerKubeConfig : string -> bool -> Result string;
  gate : GateEnv;
  log : list Call
}.

Definition setFiles (fs : gmap string Z) (w : World) : World :=
  BuildWorld (UserHomeDir w) fs (statErr w) (removeErr w) (now w)
    (providerCreate w) (providerDelete w) (providerKubeConfig w) (gate w) (log w).

Definition logCall (c : Call) (w : World) : World :=
  BuildWorld (UserHomeDir w) (files w) (statErr w) (removeErr w) (now w)
    (providerCreate w) (providerDelete w) (providerKubeConfig w) (gate w)
    (log w ++ [c]).

(** [os.Stat(path)], reduced to the modification time. *)
Definition os_Stat (w : World) (path : string) : Result Z :=
  match statErr w path with
  | Some e => Err e
  | None =>
      match files w !! path with
      | Some modTime => Ok modTime
      | None => Err (errorString "no such file or directory")
      end
  end.

(** [os.Remove(path)]. *)
Definition os_Remove (path : string) (w : World) : option error * World :=
  let w := logCall (CallRemove path) w in
  match removeErr w path with
  | Some e => (Some e, w)
  | None =>
      match files w !! path with
      | Some _ => (None, setFiles (delete path (files w)) w)
      | None => (Some (errorString "no such file or directory"), w)
      end
  end.

(** [time.Since(t)]: the subtraction saturates at the bounds of a Duration. *)
Definition time_Since (w : World) (t : Z) : Z :=
  Z.max minDuration (Z.min maxDuration (now w - t)).

(** ** The readiness gate: [waitForAllNodesReady] *)

(** The inner loop over [node.Status.Conditions]. *)
Definition isReadyCondition (condition : corev1.NodeCondition) : bool :=
  String.eqb (corev1.Type_ condition) corev1.NodeReady
  && String.eqb (corev1.Status condition) corev1.ConditionTrue.

Definition nodeReady (node : corev1.Node) : bool :=
  existsb isReadyCondition (corev1.Conditions node).

(** [allReady] after the loop over [nodes.Items]. *)
Definition allReady (nodes : list corev1.Node) : bool :=
  forallb nodeReady nodes.

(** What the body of [case <-ticker.C] does with the answer to a poll. *)
Inductive TickAction : Type :=
| Continue
| ReturnNil.

Definition tickBody (answer : Result (list corev1.Node)) : TickAction :=
  match answer with
  | Err _ => Continue
  | Ok nodes =>
      if (length nodes =? 0)%nat then Continue
      else if allReady nodes then ReturnNil
      else Continue
  end.

(** The set-up before the loop: the first call that fails ends the function. *)
(** The temporary file the set-up writes is removed when the function
    returns; neither is kept in the model of the file system. *)
Definition setupError (env : GateEnv) (kubeconfigContent : string) : option error :=
  match createTempErr env with
  | Some err => Some (wrapError "failed to create temp kubeconfig" err)
  | None =>
  match writeStringErr env kubeconfigContent with
  | Some err => Some (wrapError "failed to write kubeconfig" err)
  | None =>
  match closeErr env with
  | Some err => Some (wrapError "failed to close kubeconfig file" err)
  | None =>
  match buildConfigErr env kubeconfigContent with
  | Some err => Some (wrapError "failed to build kubeconfig" err)
  | None =>
  match newForConfigErr env with
  | Some err => Some (wrapError "failed to create kubernetes client" err)
  | None => None
  end end end end end.

Section Gate.

Variable env : GateEnv.
Variable timeout : Z.

(** The ticker period, [5 * time.Second]. *)
Definition tickerPeriod : Z := 5 * Second.

(** Instants are nanoseconds after the ticker is started.  The k-th tick
    (from 0) is delivered one period after the previous one; [time.After]
    fires at once for a duration that is not positive; a context that was
    cancelled before the call counts as cancelled at instant 0. *)
Definition tickAt (k : nat) : Z := tickerPeriod * (Z.of_nat k + 1).

Definition timeoutAt : Z := Z.max 0 timeout.

Definition cancelAt : option Z := Z.max 0 <$> ctxDoneAt env.

Definition readyAt (k : nat) (c : SelectCase) : option Z :=
  match c with
  | CtxDone => cancelAt
  | TimeoutCh => Some timeoutAt
  | TickerC => Some (tickAt k)
  end.

(** The instant at which the [select] that waits for the k-th tick wakes up:
    the earliest of the three. *)
Definition wakeAt (k : nat) : Z :=
  let t := Z.min timeoutAt (tickAt k) in
  match cancelAt with
  | Some c => Z.min c t
  | None => t
  end.

(** The channels that are ready at that instant. *)
Definition readyCases (k : nat) : list SelectCase :=
  List.filter (fun c => bool_decide (readyAt k c = Some (wakeAt k)))
    [CtxDone; TimeoutCh; TickerC].

(** [select] takes one of the ready cases; which one is Go's choice. *)
Definition selectCase (k : nat) : SelectCase :=
  let ready := readyCases k in
  let c := selectPick env k ready in
  if bool_decide (c ∈ ready) then c else List.hd TimeoutCh ready.

(** The [for { select { ... } }] loop, entered with [k] ticks consumed.
    The result is the returned error ([None] is [nil]) with the number of
    polls made; the outer [None] is a loop that has not returned within
    [fuel] iterations. *)
Fixpoint pollLoop (fuel : nat) (k : nat) : option (option error * nat) :=
  match fuel with
  | O => None
  | S fuel' =>
      match selectCase k with
      | CtxDone => Some (Some (errorString (ctxErr env)), k)
      | TimeoutCh => Some (Some (timeoutError timeout), k)
      | TickerC =>
          match tickBody (nodesList env k) with
          | ReturnNil => Some (None, S k)
          | Continue => pollLoop fuel' (S k)
          end
      end
  end.

(** No more ticks than this can come before the timeout fires. *)
Definition pollFuel : nat := S (Z.to_nat (timeoutAt / tickerPeriod)).

Definition waitForAllNodesReady (kubeconfigContent : string)
  : option (option error * nat) :=
  match setupError env kubeconfigContent with
  | Some err => Some (Some err, O)
  | None => pollLoop pollFuel O
  end.

End Gate.

(** The kinds of result [waitForAllNodesReady] can return, told apart by the
    way the error was made: [nil], [ctx.Err()], the timeout error, or an
    error of the set-up wrapped with its stage. *)
Inductive Outcome : Type :=
| Success
| Cancelled
| TimedOut
| SetupFailed.

Definition outcome (r : option error) : Outcome :=
  match r with
  | None => Success
  | Some (errorString _) => Cancelled
  | Some (timeoutError _) => TimedOut
  | Some (wrapError _ _) => SetupFailed
  end.

(** ** Library functions taken as given

    [Duration_String] is [time.Duration.String] (the [%v] of a Duration),
    [filepath_Join] is [filepath.Join], [yaml_Unmarshal] is [yaml.Unmarshal]
    into a [map[string]interface{}]. *)

Section Provider.

Variable Duration_String : Z -> string.
Variable filepath_Join : list string -> string.
Variable yaml_Unmarshal : string -> Result (gmap string iface).

(** [err.Error()]. *)
Fixpoint Error (err : error) : string :=
  match err with
  | errorString msg => msg
  | wrapError prefix err' => prefix +:+ ": " +:+ Error err'
  | timeoutError d =>
      "timeout waiting for nodes to be ready after " +:+ Duration_String d
  end.

(** ** Lock recovery: [cleanupStaleLockFile] *)

Definition lockFilePath (homeDir : string) : string :=
  filepath_Join [homeDir; ".kube"; "config.lock"].

Definition cleanupStaleLockFile (w : World) : World :=
  match UserHomeDir w with
  | Err _ => w
  | Ok homeDir =>
      let lockFile := lockFilePath homeDir in
      match os_Stat w lockFile with
      | Err _ => w
      | Ok modTime =>
          if 60 * Second <? time_Since w modTime
          then snd (os_Remove lockFile w)
          else w
      end
  end.

(** ** Credential extraction: [populateComputedValues] *)

Definition setComputed (data : ClusterResourceModel.t)
    (id kubeconfig kubeconfigPath clientCertificate clientKey
     clusterCaCertificate endpoint : types.String) : ClusterResourceModel.t :=
  ClusterResourceModel.Build
    id
    (ClusterResourceModel.Name data)
    (ClusterResourceModel.NodeImage data)
    (ClusterResourceModel.WaitForReady data)
    (ClusterResourceModel.WaitForNodesReady data)
    (ClusterResourceModel.Networking data)
    (ClusterResourceModel.FeatureGates data)
    (ClusterResourceModel.RuntimeConfig data)
    (ClusterResourceModel.KubeadmConfigPatches data)
    (ClusterResourceModel.KubeadmConfigPatchesJSON6902 data)
    (ClusterResourceModel.ContainerdConfigPatches data)
    (ClusterResourceModel.ContainerdConfigPatchesJSON6902 data)
    kubeconfig
    kubeconfigPath
    clientCertificate
    clientKey
    clusterCaCertificate
    endpoint
    (ClusterResourceModel.Nodes data).

Definition populateComputedValues (data : ClusterResourceModel.t)
    (diagnostics : diag.Diagnostics) (w : World)
  : ClusterResourceModel.t * diag.Diagnostics * World :=
  let clusterName := types.ValueString (ClusterResourceModel.Name data) in
  let id := types.StringValue clusterName in
  let w := logCall (CallProviderKubeConfig clusterName false) w in
  match providerKubeConfig w clusterName false with
  | Err err =>
      (setComputed data id
         (ClusterResourceModel.Kubeconfig data)
         (ClusterResourceModel.KubeconfigPath data)
         (ClusterResourceModel.ClientCertificate data)
         (ClusterResourceModel.ClientKey data)
         (ClusterResourceModel.ClusterCaCertificate data)
         (ClusterResourceModel.Endpoint data),
       diag.AddError diagnostics "Failed to get kubeconfig" (Error err), w)
  | Ok kubeconfig =>
  match UserHomeDir w with
  | Err err =>
      (setComputed data id
         (types.StringValue kubeconfig)
         (ClusterResourceModel.KubeconfigPath data)
         (ClusterResourceModel.ClientCertificate data)
         (ClusterResourceModel.ClientKey data)
         (ClusterResourceModel.ClusterCaCertificate data)
         (ClusterResourceModel.Endpoint data),
       diag.AddError diagnostics "Failed to get home directory" (Error err), w)
  | Ok homeDir =>
  let kubeconfigPath :=
    filepath_Join [homeDir; ".kube"; "kind"; "kind-" +:+ clusterName] in
  match yaml_Unmarshal kubeconfig with
  | Err err =>
      (setComputed data id
         (types.StringValue kubeconfig)
         (types.StringValue kubeconfigPath)
         (ClusterResourceModel.ClientCertificate data)
         (ClusterResourceModel.ClientKey data)
         (ClusterResourceModel.ClusterCaCertificate data)
         (ClusterResourceModel.Endpoint data),
       diag.AddError diagnostics "Failed to parse kubeconfig" (Error err), w)
  | Ok kubeconfigData =>
      let clusterInfo := firstEntry kubeconfigData "clusters" "cluster" in
      let userInfo := firstEntry kubeconfigData "users" "user" in
      (setComputed data id
         (types.StringValue kubeconfig)
         (types.StringValue kubeconfigPath)
         (emptyIfNull (extractString userInfo "client-certificate-data"
                         (ClusterResourceModel.ClientCertificate data)))
         (emptyIfNull (extractString userInfo "client-key-data"
                         (ClusterResourceModel.ClientKey data)))
         (emptyIfNull (extractString clusterInfo "certificate-authority-data"
                         (ClusterResourceModel.ClusterCaCertificate data)))
         (emptyIfNull (extractString clusterInfo "server"
                         (ClusterResourceModel.Endpoint data))),
       diagnostics, w)
  end end end.

(** ** The lifecycle controller: [Create] and [Delete] *)

(** [req.Plan.Get(ctx, &data)]: the decoded plan and the diagnostics of the
    decoding. *)
Record CreateRequest : Type := BuildCreateRequest {
  PlanData : ClusterResourceModel.t;
  PlanGetDiags : diag.Diagnostics
}.

(** [State] is [None] until [resp.State.Set] stores the model: the framework
    hands [Create] a response whose state is null and whose diagnostics are
    empty.  [State.Set] of a model that matches the schema adds no
    diagnostic. *)
Record CreateResponse : Type := BuildCreateResponse {
  Diagnostics : diag.Diagnostics;
  State : option ClusterResourceModel.t
}.

Definition createOptions (data : ClusterResourceModel.t) : list CreateOption :=
  [ CreateWithV1Alpha4Config (buildClusterConfig data);
    CreateWithWaitForReady
      (seconds (types.ValueInt64 (ClusterResourceModel.WaitForReady data)));
    CreateWithDisplayUsage false;
    CreateWithDisplaySalutation false ]
  ++ (if negb (types.String_IsNull (ClusterResourceModel.NodeImage data))
         && negb (String.eqb (types.ValueString (ClusterResourceModel.NodeImage data)) "")
      then [CreateWithNodeImage (types.ValueString (ClusterResourceModel.NodeImage data))]
      else []).

(** The polls of the gate, as calls in the log. *)
Definition logPolls (polls : nat) (w : World) : World :=
  foldl (fun w k => logCall (CallNodesList k) w) w (seq 0 polls).

(** [Create].  The outer [None] is a readiness gate that never returns. *)
Definition Create (req : CreateRequest) (w : World)
  : option (CreateResponse * World) :=
  let w := cleanupStaleLockFile w in
  let diags := diag.Append [] (PlanGetDiags req) in
  if diag.HasError diags then Some (BuildCreateResponse diags None, w) else
  let data := PlanData req in
  let clusterName := types.ValueString (ClusterResourceModel.Name data) in
  let createOpts := createOptions data in
  let w := logCall (CallProviderCreate clusterName createOpts) w in
  match providerCreate w clusterName createOpts with
  | Some err =>
      Some (BuildCreateResponse
              (diag.AddError diags "Failed to create cluster" (Error err)) None, w)
  | None =>
      let '(data, diags, w) := populateComputedValues data diags w in
      if diag.HasError diags then Some (BuildCreateResponse diags None, w) else
      if negb (types.Bool_IsNull (ClusterResourceModel.WaitForNodesReady data))
         && types.ValueBool (ClusterResourceModel.WaitForNodesReady data)
      then
        let timeout :=
          seconds (types.ValueInt64 (ClusterResourceModel.WaitForReady data)) in
        match waitForAllNodesReady (gate w) timeout
                (types.ValueString (ClusterResourceModel.Kubeconfig data)) with
        | None => None
        | Some (Some err, polls) =>
            Some (BuildCreateResponse
                    (diag.AddError diags "Failed waiting for nodes to be ready"
                       (Error err)) None,
                  logPolls polls w)
        | Some (None, polls) =>
            Some (BuildCreateResponse diags (Some data), logPolls polls w)
        end
      else Some (BuildCreateResponse diags (Some data), w)
  end.



End Provider.

(** ** The lifecycle controller: [Read], [Update], [ImportState] *)

(** What an operation leaves in [resp.State].  For [Read] and [Update] the
    framework fills the response with the prior state, which stays there
    unless the operation removes the resource or stores a model. *)
Inductive StateChange : Type :=
| StateKept
| StateRemoved
| StateSet (data : ClusterResourceModel.t).

(** The model decoded from the request ([req.State.Get] in [Read],
    [req.Plan.Get] in [Update]) with the diagnostics of the decoding. *)
Record StateRequest : Type := BuildStateRequest {
  RequestData : ClusterResourceModel.t;
  RequestGetDiags : diag.Diagnostics
}.

Record StateResponse : Type := BuildStateResponse {
  ResponseDiagnostics : diag.Diagnostics;
  ResponseState : StateChange
}.

(** The search loop of [Read]:
    [[
      for _, c := range clusters { if c == clusterName { found = true; break } }
    ]] *)
Definition containsCluster (clusters : list string) (clusterName : string) : bool :=
  existsb (fun c => String.eqb c clusterName) clusters.

(** [ImportStatePassthroughID(ctx, path.Root("name"), req, resp)]: the state
    in which only [name] is set, to the identifier of the import, as the
    following [Read] decodes it. *)
Definition ImportState (id : string) : ClusterResourceModel.t :=
  ClusterResourceModel.Build
    types.StringNull (types.StringValue id) types.StringNull
    types.Int64Null types.BoolNull None
    types.MapNull types.MapNull types.ListNull [] types.ListNull types.ListNull
    types.StringNull types.StringNull types.StringNull
    types.StringNull types.StringNull types.StringNull
    [].

Module ClustersDataSourceModel.
Record t : Type := Build {
  ID : types.String;
  Clusters : list types.String
}.
End ClustersDataSourceModel.

Section Lifecycle.

Variable Duration_String : Z -> string.
Variable filepath_Join : list string -> string.
Variable yaml_Unmarshal : string -> Result (gmap string iface).

(** The model after a successful extraction from the decoded bundle [doc]:
    what [populateComputedValues] leaves in [data] on its last path. *)
Definition extracted (data : ClusterResourceModel.t) (kubeconfig homeDir : string)
    (doc : gmap string iface) : ClusterResourceModel.t :=
  setComputed data
    (types.StringValue (types.ValueString (ClusterResourceModel.Name data)))
    (types.StringValue kubeconfig)
    (types.StringValue
       (filepath_Join
          [homeDir; ".kube"; "kind";
           "kind-" +:+ types.ValueString (ClusterResourceModel.Name data)]))
    (emptyIfNull (extractString (firstEntry doc "users" "user")
                    "client-certificate-data"
                    (ClusterResourceModel.ClientCertificate data)))
    (emptyIfNull (extractString (firstEntry doc "users" "user") "client-key-data"
                    (ClusterResourceModel.ClientKey data)))
    (emptyIfNull (extractString (firstEntry doc "clusters" "cluster")
                    "certificate-authority-data"
                    (ClusterResourceModel.ClusterCaCertificate data)))
    (emptyIfNull (extractString (firstEntry doc "clusters" "cluster") "server"
                    (ClusterResourceModel.Endpoint data))).

(** The answer of [r.provider.List()], a query that is not logged. *)
Variable provider_List : Result (list string).

Definition Read (req : StateRequest) (w : World) : StateResponse * World :=
  let diags := diag.Append [] (RequestGetDiags req) in
  if diag.HasError diags then (BuildStateResponse diags StateKept, w) else
  let data := RequestData req in
  let clusterName := types.ValueString (ClusterResourceModel.Name data) in
  match provider_List with
  | Err err =>
      (BuildStateResponse
         (diag.AddError diags "Failed to list clusters" (Error Duration_String err))
         StateKept, w)
  | Ok clusters =>
      if negb (containsCluster clusters clusterName)
      then (BuildStateResponse diags StateRemoved, w)
      else
        let '(data, diags, w) :=
          populateComputedValues Duration_String filepath_Join yaml_Unmarshal
            data diags w in
        if diag.HasError diags then (BuildStateResponse diags StateKept, w)
        else (BuildStateResponse diags (StateSet data), w)
  end.

Definition Update (req : StateRequest) (w : World) : StateResponse * World :=
  let diags := diag.Append [] (RequestGetDiags req) in
  if diag.HasError diags then (BuildStateResponse diags StateKept, w) else
  let '(data, diags, w) :=
    populateComputedValues Duration_String filepath_Join yaml_Unmarshal
      (RequestData req) diags w in
  if diag.HasError diags then (BuildStateResponse diags StateKept, w)
  else (BuildStateResponse diags (StateSet data), w).

(** [ClustersDataSource.Read]. *)
Definition ClustersDataSource_Read
  : diag.Diagnostics * option ClustersDataSourceModel.t :=
  match provider_List with
  | Err err =>
      (diag.AddError [] "Failed to list clusters" (Error Duration_String err), None)
  | Ok clusters =>
      ([], Some (ClustersDataSourceModel.Build
                   (types.StringValue "kind-clusters")
                   (map types.StringValue clusters)))
  end.

End Lifecycle.

(** The elements the string loops keep. *)
Definition notNull (v : types.String) : bool := negb (types.String_IsNull v).

(** ** Sample inputs *)

Definition nodeOfRole (role : string) : NodeModel.t :=
  NodeModel.Build (types.StringValue role) types.StringNull types.MapNull [] []
    types.ListNull [].

(** A plan as [Create] receives it: the computed attributes are unknown. *)
Definition planModel (name : string) (nodes : list NodeModel.t)
    (patches : types.List) : ClusterResourceModel.t :=
  ClusterResourceModel.Build
    types.StringUnknown (types.StringValue name) (types.StringValue "")
    (types.Int64Value 300) (types.BoolValue true) None
    types.MapNull types.MapNull patches [] types.ListNull types.ListNull
    types.StringUnknown types.StringUnknown types.StringUnknown
    types.StringUnknown types.StringUnknown types.StringUnknown
    nodes.

Definition stringElems (l : list string) : types.List :=
  types.ListValue (map (fun s => types.VString (types.StringValue s)) l).

(** The constants kind declares for each enumeration. *)
Definition knownRoles : list v1alpha4.NodeRole :=
  [v1alpha4.ControlPlaneRole; v1alpha4.WorkerRole].

Definition knownIPFamilies : list v1alpha4.ClusterIPFamily :=
  [v1alpha4.IPv4Family; v1alpha4.IPv6Family; v1alpha4.DualStackFamily].

Definition knownProxyModes : list v1alpha4.ProxyMode :=
  [v1alpha4.IPTablesProxyMode; v1alpha4.IPVSProxyMode; v1alpha4.NFTablesProxyMode].

Definition knownPropagations : list v1alpha4.MountPropagation :=
  [v1alpha4.MountPropagationNone; v1alpha4.MountPropagationHostToContainer;
   v1alpha4.MountPropagationBidirectional].

Definition knownProtocols : list v1alpha4.PortMappingProtocol :=
  [v1alpha4.PortMappingProtocolTCP; v1alpha4.PortMappingProtocolUDP;
   v1alpha4.PortMappingProtocolSCTP].

Definition mountWithPropagation (p : types.String) : MountModel.t :=
  MountModel.Build (types.StringValue "/data") (types.StringValue "/mnt")
    types.BoolNull types.BoolNull p.

Definition readyNode (name : string) : corev1.Node :=
  corev1.BuildNode name
    [ corev1.BuildCondition "MemoryPressure" "False";
      corev1.BuildCondition "Ready" "True" ].

Definition notReadyNode (name : string) : corev1.Node :=
  corev1.BuildNode name [ corev1.BuildCondition "Ready" "False" ].

(** A status endpoint that is unreachable at the first poll, then reports no
    node, then a node that is not ready, then two ready nodes. *)
Definition warmingUp (k : nat) : Result (list corev1.Node) :=
  match k with
  | 0%nat => Err (errorString "connection refused")
  | 1%nat => Ok []
  | 2%nat => Ok [readyNode "kind-control-plane"; notReadyNode "kind-worker"]
  | _ => Ok [readyNode "kind-control-plane"; readyNode "kind-worker"]
  end.

Definition alwaysReady (k : nat) : Result (list corev1.Node) :=
  Ok [readyNode "kind-control-plane"; readyNode "kind-worker"].

Definition pickFirst (k : nat) (ready : list SelectCase) : SelectCase :=
  List.hd TimeoutCh ready.

(** A gate whose set-up succeeds. *)
Definition gateEnv (cancel : option Z)
    (answers : nat -> Result (list corev1.Node)) : GateEnv :=
  BuildGateEnv None (fun _ => None) None (fun _ => None) None
    cancel "context canceled" answers pickFirst.

(** A gate whose credential bundle the client library rejects. *)
Definition rejectingGateEnv : GateEnv :=
  BuildGateEnv None (fun _ => None) None
    (fun _ => Some (errorString "invalid configuration: no configuration has been provided"))
    None None "context canceled" alwaysReady pickFirst.

(** Stand-ins for the library functions, enough for the sample inputs:
    a join with slashes, a duration printed in seconds, and a decoder that
    knows two documents. *)
Definition joinSlash (elems : list string) : string :=
  match elems with
  | [] => ""
  | e :: es => foldl (fun acc x => acc +:+ "/" +:+ x) e es
  end.

Definition secondsString (d : Z) : string :=
  pretty (d / Second) +:+ "s".

(** A credential bundle with a cluster entry and no ["users"] section. *)
Definition kubeconfigNoUsers : string :=
  "clusters: [{name: kind-dev, cluster: {server: https://127.0.0.1:6443, certificate-authority-data: Q0E=}}]".

Definition docNoUsers : gmap string iface :=
  {[ "clusters" :=
       ISlice [ IMap (<[ "name" := IString "kind-dev" ]>
                      {[ "cluster" :=
                           IMap (<[ "server" := IString "https://127.0.0.1:6443" ]>
                                 {[ "certificate-authority-data" := IString "Q0E=" ]}) ]}) ] ]}.

Definition decodeSample (s : string) : Result (gmap string iface) :=
  if String.eqb s kubeconfigNoUsers then Ok docNoUsers
  else Err (errorString "yaml: did not find expected node content").

Definition sampleWorld (createErr : option error) (kubeconfig : Result string)
    (g : GateEnv) (fs : gmap string Z) (clock : Z) : World :=
  BuildWorld (Ok "/home/dev") fs (fun _ => None) (fun _ => None) clock
    (fun _ _ => createErr) (fun _ _ => None) (fun _ _ => kubeconfig) g [].

Definition sampleLock : string := "/home/dev/.kube/config.lock".

Definition sampleRequest : CreateRequest :=
  BuildCreateRequest (planModel "dev" [] types.ListNull) [].

Definition neverReady (k : nat) : Result (list corev1.Node) :=
  Ok [readyNode "kind-control-plane"; notReadyNode "kind-worker"].

(** A backend that rejects the create. *)
Definition worldCreateFails : World :=
  sampleWorld (Some (errorString "image not found")) (Ok kubeconfigNoUsers)
    (gateEnv None alwaysReady) ∅ 0.

(** A backend that creates the cluster, whose worker never gets ready. *)
Definition worldNeverReady : World :=
  sampleWorld None (Ok kubeconfigNoUsers) (gateEnv None neverReady) ∅ 0.

Definition nodeWithLabels (labels : types.Map) : NodeModel.t :=
  NodeModel.Build (types.StringValue "worker") types.StringNull labels [] []
    types.ListNull [].

Definition portMapping (containerPort hostPort : Z) : PortMappingModel.t :=
  PortMappingModel.Build (types.Int64Value containerPort)
    (types.Int64Value hostPort) types.StringNull types.StringNull.

Definition networkingWithDNS (dns : types.List) : NetworkingModel.t :=
  NetworkingModel.Build types.StringNull types.Int64Null types.StringNull
    types.StringNull types.StringNull types.BoolNull types.StringNull dns.

(** A plan with the given node image, maps and containerd patches. *)
Definition planWith (image : types.String) (waitForReady : Z)
    (featureGates runtimeConfig : types.Map) (containerd : types.List)
  : ClusterResourceModel.t :=
  ClusterResourceModel.Build
    types.StringUnknown (types.StringValue "dev") image
    (types.Int64Value waitForReady) (types.BoolValue true) None
    featureGates runtimeConfig types.ListNull [] containerd types.ListNull
    types.StringUnknown types.StringUnknown types.StringUnknown
    types.StringUnknown types.StringUnknown types.StringUnknown
    [].

Definition gatesAndConfig : gmap string types.Value :=
  <[ "A" := types.VBool (types.BoolValue true) ]>
  (<[ "B" := types.VBool types.BoolNull ]>
   {[ "api/alpha" := types.VString types.StringNull ]}).

(** A complete credential bundle, with a second cluster and a second user
    that are never read. *)
Definition kubeconfigFull : string :=
  "clusters: [{cluster: {server: https://127.0.0.1:6443, certificate-authority-data: Q0E=}}, {cluster: {server: https://10.0.0.1:6443}}]; users: [{user: {client-certificate-data: Q1JU, client-key-data: S0VZ}}, {user: {client-key-data: T1RIRVI=}}]".

Definition docFull : gmap string iface :=
  <[ "clusters" :=
       ISlice [ IMap {[ "cluster" :=
                          IMap (<[ "server" := IString "https://127.0.0.1:6443" ]>
                                {[ "certificate-authority-data" := IString "Q0E=" ]}) ]};
                IMap {[ "cluster" :=
                          IMap {[ "server" := IString "https://10.0.0.1:6443" ]} ]} ] ]>
  {[ "users" :=
       ISlice [ IMap {[ "user" :=
                          IMap (<[ "client-certificate-data" := IString "Q1JU" ]>
                                {[ "client-key-data" := IString "S0VZ" ]}) ]};
                IMap {[ "user" :=
                          IMap {[ "client-key-data" := IString "T1RIRVI=" ]} ]} ] ]}.

Definition decodeFull (s : string) : Result (gmap string iface) :=
  if String.eqb s kubeconfigFull then Ok docFull
  else Err (errorString "yaml: did not find expected node content").

(** A backend with the cluster created and a complete credential bundle. *)
Definition worldFull (g : GateEnv) (fs : gmap string Z) (clock : Z) : World :=
  sampleWorld None (Ok kubeconfigFull) g fs clock.

(** The model after a previous apply, with a client key since rotated. *)
Definition staleModel : ClusterResourceModel.t :=
  ClusterResourceModel.Build
    (types.StringValue "dev") (types.StringValue "dev") (types.StringValue "")
    (types.Int64Value 300) (types.BoolValue true) None
    types.MapNull types.MapNull types.ListNull [] types.ListNull types.ListNull
    (types.StringValue "old bundle") (types.StringValue "/home/dev/.kube/kind/kind-dev")
    (types.StringValue "Q1JU") (types.StringValue "T0xE")
    (types.StringValue "Q0E=") (types.StringValue "https://127.0.0.1:6443")
    [].

Definition requestFull : CreateRequest :=
  BuildCreateRequest
    (planWith types.StringNull 300 types.MapNull types.MapNull types.ListNull) [].




Definition readRequest : StateRequest := BuildStateRequest staleModel [].

Definition importRequest : StateRequest := BuildStateRequest (ImportState "dev") [].

(** * Properties *)

(** ** The configuration synthesizer *)

Lemma collectStrings_values (l : list string) :
  collectStrings (map (fun s => types.VString (types.StringValue s)) l) = l.
Proof.
  unfold collectStrings.
  induction l as [|s l IH]; simpl; [reflexivity | f_equal; exact IH].
Qed.

Lemma stringList_values (l : list string) : stringList (stringElems l) = l.
Proof.
  unfold stringList, stringElems; simpl.
  destruct l as [|s l]; [reflexivity|].
  rewrite length_map; simpl.
  apply (collectStrings_values (s :: l)).
Qed.

(** In general a null element is skipped and the others are kept in order. *)
Lemma collectStrings_null (l1 l2 : list types.Value) :
  collectStrings (l1 ++ types.VString types.StringNull :: l2)
  = collectStrings l1 ++ collectStrings l2.
Proof. unfold collectStrings. by rewrite omap_app. Qed.

Lemma buildNodes_nil : buildNodes [] = defaultNodes.
Proof. reflexivity. Qed.

Lemma buildNodes_cons (n : NodeModel.t) (ns : list NodeModel.t) :
  buildNodes (n :: ns) = map buildNodeConfig (n :: ns).
Proof. reflexivity. Qed.

(** C1.  With no node block the synthesized node list is exactly
    [control-plane; worker], of length 2 and in that order; with node blocks
    it holds one synthesized node per declared block, in the declared order. *)
Theorem buildClusterConfig_node_topology (data : ClusterResourceModel.t) :
  let nodes := v1alpha4.Cluster.Nodes (buildClusterConfig data) in
  (length (ClusterResourceModel.Nodes data) = 0%nat ->
     nodes = [ v1alpha4.Node.ofRole v1alpha4.ControlPlaneRole;
               v1alpha4.Node.ofRole v1alpha4.WorkerRole ]
     /\ length nodes = 2%nat
     /\ map v1alpha4.Node.Role nodes = ["control-plane"; "worker"])
  /\ (length (ClusterResourceModel.Nodes data) <> 0%nat ->
     nodes = map buildNodeConfig (ClusterResourceModel.Nodes data)
     /\ length nodes = length (ClusterResourceModel.Nodes data)
     /\ forall i : nat,
          nodes !! i = buildNodeConfig <$> (ClusterResourceModel.Nodes data !! i)).
Proof.
  simpl. destruct (ClusterResourceModel.Nodes data) as [|n ns] eqn:Hn.
  - split; [intros _ | intros H; by destruct H].
    rewrite buildNodes_nil. by repeat split.
  - split; [intros H; discriminate H | intros _].
    rewrite buildNodes_cons. split; [reflexivity|].
    split; [by rewrite length_map|].
    intros i. apply list_lookup_fmap.
Qed.

Lemma buildClusterConfig_node_topology_witness :
  v1alpha4.Cluster.Nodes (buildClusterConfig (planModel "dev" [] types.ListNull))
    = [ v1alpha4.Node.ofRole "control-plane"; v1alpha4.Node.ofRole "worker" ]
  /\ map v1alpha4.Node.Role
       (v1alpha4.Cluster.Nodes
          (buildClusterConfig
             (planModel "dev"
                [nodeOfRole "worker"; nodeOfRole "control-plane"; nodeOfRole "worker"]
                types.ListNull)))
     = ["worker"; "control-plane"; "worker"].
Proof.
  split.
  - apply (proj1 (buildClusterConfig_node_topology
                    (planModel "dev" [] types.ListNull))).
    reflexivity.
  - rewrite (proj1 (proj2 (buildClusterConfig_node_topology
               (planModel "dev"
                  [nodeOfRole "worker"; nodeOfRole "control-plane"; nodeOfRole "worker"]
                  types.ListNull)) ltac:(discriminate))).
    reflexivity.
Defined.

(** C8.  A model whose kubeadm merge-patch attribute holds the N strings
    [ps] is synthesized into a spec whose merge-patch list is [ps]: the same
    N elements in the same order.  This holds for the cluster-level list and
    for the list of a node. *)
Theorem kubeadm_merge_patches_preserved (ps : list string) :
  (forall data : ClusterResourceModel.t,
     ClusterResourceModel.KubeadmConfigPatches data = stringElems ps ->
     v1alpha4.Cluster.KubeadmConfigPatches (buildClusterConfig data) = ps
     /\ length (v1alpha4.Cluster.KubeadmConfigPatches (buildClusterConfig data))
        = length ps)
  /\ (forall node : NodeModel.t,
     NodeModel.KubeadmConfigPatches node = stringElems ps ->
     v1alpha4.Node.KubeadmConfigPatches (buildNodeConfig node) = ps
     /\ length (v1alpha4.Node.KubeadmConfigPatches (buildNodeConfig node))
        = length ps).
Proof.
  split; intros x Hx; simpl; rewrite Hx, stringList_values; by split.
Qed.

Lemma kubeadm_merge_patches_preserved_witness :
  v1alpha4.Cluster.KubeadmConfigPatches
    (buildClusterConfig (planModel "dev" [] (stringElems ["a: 1"; "b: 2"; "a: 1"])))
  = ["a: 1"; "b: 2"; "a: 1"].
Proof.
  apply (proj1 (kubeadm_merge_patches_preserved ["a: 1"; "b: 2"; "a: 1"])).
  reflexivity.
Defined.

(** *** Enumerations *)

Lemma ValueString_eq (v : types.String) (c : string) :
  c <> "" -> types.ValueString v = c <-> v = types.StringValue c.
Proof.
  intros Hc. destruct v as [| |s]; simpl; split; intros H;
    try congruence; try discriminate H.
Qed.

Lemma nonEmptyString_ValueString (v : types.String) :
  nonEmptyString v = types.ValueString v.
Proof.
  unfold nonEmptyString. destruct v as [| |s]; simpl; try reflexivity.
  destruct (String.eqb_spec s ""); simpl; congruence.
Qed.

Lemma switchRole_control_plane (s : string) :
  switchRole s = v1alpha4.ControlPlaneRole <-> s = "control-plane".
Proof.
  unfold switchRole.
  destruct (String.eqb_spec s "control-plane") as [->|H1]; [tauto|].
  destruct (String.eqb_spec s "worker") as [->|H2]; split; intros H;
    try discriminate H; congruence.
Qed.

Lemma switchRole_worker (s : string) :
  switchRole s = v1alpha4.WorkerRole <-> s = "worker".
Proof.
  unfold switchRole.
  destruct (String.eqb_spec s "control-plane") as [->|H1];
    [split; intros H; discriminate H|].
  destruct (String.eqb_spec s "worker") as [->|H2]; split; intros H;
    try discriminate H; congruence.
Qed.

Lemma switchRole_other (s : string) :
  s <> "control-plane" -> s <> "worker" -> switchRole s = "".
Proof.
  intros H1 H2. unfold switchRole.
  destruct (String.eqb_spec s "control-plane"); [congruence|].
  destruct (String.eqb_spec s "worker"); [congruence|reflexivity].
Qed.

Lemma buildNodeConfig_Role (node : NodeModel.t) :
  v1alpha4.Node.Role (buildNodeConfig node)
  = switchRole (types.ValueString (NodeModel.Role node)).
Proof. simpl. by destruct (NodeModel.Role node). Qed.

Lemma buildMount_Propagation (mount : MountModel.t) :
  v1alpha4.Mount.Propagation (buildMount mount)
  = types.ValueString (MountModel.Propagation mount).
Proof. simpl. by destruct (MountModel.Propagation mount). Qed.

Lemma buildPortMapping_Protocol (pm : PortMappingModel.t) :
  v1alpha4.PortMapping.Protocol (buildPortMapping pm)
  = types.ValueString (PortMappingModel.Protocol pm).
Proof. simpl. by destruct (PortMappingModel.Protocol pm). Qed.

(** No known constant is the empty string. *)
Lemma known_nonempty (c : string) (known : list string) :
  c ∈ known -> ~ In "" known -> c <> "".
Proof. intros Hc Hno ->. by apply Hno, list_elem_of_In. Qed.

Lemma known_role_exact (node : NodeModel.t) (c : string) :
  c ∈ knownRoles ->
  v1alpha4.Node.Role (buildNodeConfig node) = c
  <-> NodeModel.Role node = types.StringValue c.
Proof.
  intros Hc. rewrite buildNodeConfig_Role.
  rewrite <- (ValueString_eq _ c)
    by (apply (known_nonempty _ _ Hc); simpl; intuition discriminate).
  apply list_elem_of_In in Hc. simpl in Hc.
  destruct Hc as [<-|[<-|[]]].
  - apply switchRole_control_plane.
  - apply switchRole_worker.
Qed.

Lemma unknown_role_unset (node : NodeModel.t) :
  (forall c : string, c ∈ knownRoles -> NodeModel.Role node <> types.StringValue c) ->
  v1alpha4.Node.Role (buildNodeConfig node) = "".
Proof.
  intros Hno. rewrite buildNodeConfig_Role. apply switchRole_other.
  - intros Hs. apply (Hno "control-plane"); [apply list_elem_of_In; simpl; tauto|].
    by apply ValueString_eq.
  - intros Hs. apply (Hno "worker"); [apply list_elem_of_In; simpl; tauto|].
    by apply ValueString_eq.
Qed.

(** C7.  Each enumeration is mapped by exact string match: a synthesized
    field holds a known constant of its enumeration exactly when the declared
    string is that constant, character for character.  The role goes through
    a two-case switch, and a role that is neither constant leaves the field
    at its zero value, the empty string; nothing fails.  The other four are
    converted from the declared string as it is. *)
Theorem enum_fields_exact_match :
  (forall (node : NodeModel.t) (c : string),
     c ∈ knownRoles ->
     v1alpha4.Node.Role (buildNodeConfig node) = c
     <-> NodeModel.Role node = types.StringValue c)
  /\ (forall node : NodeModel.t,
     (forall c : string, c ∈ knownRoles -> NodeModel.Role node <> types.StringValue c) ->
     v1alpha4.Node.Role (buildNodeConfig node) = "")
  /\ (forall (net : NetworkingModel.t) (c : string),
     c ∈ knownIPFamilies ->
     v1alpha4.Networking.IPFamily (buildNetworkingConfig net) = c
     <-> NetworkingModel.IPFamily net = types.StringValue c)
  /\ (forall (net : NetworkingModel.t) (c : string),
     c ∈ knownProxyModes ->
     v1alpha4.Networking.KubeProxyMode (buildNetworkingConfig net) = c
     <-> NetworkingModel.KubeProxyMode net = types.StringValue c)
  /\ (forall (mount : MountModel.t) (c : string),
     c ∈ knownPropagations ->
     v1alpha4.Mount.Propagation (buildMount mount) = c
     <-> MountModel.Propagation mount = types.StringValue c)
  /\ (forall (pm : PortMappingModel.t) (c : string),
     c ∈ knownProtocols ->
     v1alpha4.PortMapping.Protocol (buildPortMapping pm) = c
     <-> PortMappingModel.Protocol pm = types.StringValue c)
  /\ (forall node : NodeModel.t,
     v1alpha4.Node.ExtraMounts (buildNodeConfig node)
       = map buildMount (NodeModel.ExtraMounts node)
     /\ v1alpha4.Node.ExtraPortMappings (buildNodeConfig node)
       = map buildPortMapping (NodeModel.ExtraPortMappings node))
  /\ (forall (data : ClusterResourceModel.t) (net : NetworkingModel.t),
     ClusterResourceModel.Networking data = Some net ->
     v1alpha4.Cluster.Networking (buildClusterConfig data)
       = buildNetworkingConfig net).
Proof.
  split; [exact known_role_exact|].
  split; [exact unknown_role_unset|].
  split; [|split; [|split; [|split; [|split]]]].
  - intros net c Hc. simpl. rewrite nonEmptyString_ValueString.
    apply ValueString_eq, (known_nonempty _ _ Hc); simpl; intuition discriminate.
  - intros net c Hc. simpl. rewrite nonEmptyString_ValueString.
    apply ValueString_eq, (known_nonempty _ _ Hc); simpl; intuition discriminate.
  - intros mount c Hc. rewrite buildMount_Propagation.
    apply ValueString_eq, (known_nonempty _ _ Hc); simpl; intuition discriminate.
  - intros pm c Hc. rewrite buildPortMapping_Protocol.
    apply ValueString_eq, (known_nonempty _ _ Hc); simpl; intuition discriminate.
  - intros node. by split.
  - intros data net Hnet. simpl. by rewrite Hnet.
Qed.

Lemma enum_fields_exact_match_witness :
  v1alpha4.Node.Role (buildNodeConfig (nodeOfRole "worker")) = "worker"
  /\ v1alpha4.Node.Role (buildNodeConfig (nodeOfRole "Worker")) = ""
  /\ v1alpha4.Mount.Propagation
       (buildMount (mountWithPropagation (types.StringValue "Bidirectional")))
     = "Bidirectional".
Proof.
  destruct enum_fields_exact_match as (Hrole & Hother & _ & _ & Hprop & _).
  split; [|split].
  - apply (Hrole (nodeOfRole "worker") "worker"); [apply list_elem_of_In; simpl; tauto | reflexivity].
  - apply (Hother (nodeOfRole "Worker")).
    intros c Hc. apply list_elem_of_In in Hc. simpl in Hc.
    by destruct Hc as [<-|[<-|[]]].
  - apply (Hprop (mountWithPropagation (types.StringValue "Bidirectional"))
             "Bidirectional"); [apply list_elem_of_In; simpl; tauto | reflexivity].
Defined.

(** ** The readiness gate *)

Lemma tickerPeriod_pos : 0 < tickerPeriod.
Proof. unfold tickerPeriod, Second. lia. Qed.

Lemma tickBody_ReturnNil (answer : Result (list corev1.Node)) :
  tickBody answer = ReturnNil ->
  exists nodes, answer = Ok nodes /\ (1 <= length nodes)%nat /\ allReady nodes = true.
Proof.
  unfold tickBody. destruct answer as [nodes|e]; [|discriminate].
  destruct nodes as [|n ns]; [discriminate|].
  cbn [length Nat.eqb].
  destruct (allReady (n :: ns)) eqn:Hall; [|discriminate].
  intros _. exists (n :: ns). cbn [length]. repeat split; [lia | exact Hall].
Qed.

Lemma tickBody_no_nodes : tickBody (Ok []) = Continue.
Proof. reflexivity. Qed.

Lemma nodeReady_true (node : corev1.Node) :
  nodeReady node = true ->
  exists c, In c (corev1.Conditions node)
            /\ corev1.Type_ c = "Ready" /\ corev1.Status c = "True".
Proof.
  unfold nodeReady. intros H. apply existsb_exists in H as (c & Hin & Hc).
  exists c. split; [exact Hin|].
  unfold isReadyCondition in Hc. apply andb_true_iff in Hc as [H1 H2].
  by apply String.eqb_eq in H1, H2.
Qed.

Lemma allReady_true (nodes : list corev1.Node) :
  allReady nodes = true ->
  forall node, In node nodes ->
    exists c, In c (corev1.Conditions node)
              /\ corev1.Type_ c = "Ready" /\ corev1.Status c = "True".
Proof.
  unfold allReady. intros H node Hin.
  apply nodeReady_true. eapply forallb_forall in H; eauto.
Qed.

Section GateProperties.

Variable env : GateEnv.
Variable timeout : Z.

Local Abbreviation wake := (wakeAt env timeout).
Local Abbreviation ready := (readyAt env timeout).
Local Abbreviation cases := (readyCases env timeout).
Local Abbreviation chosen := (selectCase env timeout).
Local Abbreviation loop := (pollLoop env timeout).
Local Abbreviation deadline := (timeoutAt timeout).
Local Abbreviation cancelled := (cancelAt env).

Lemma tickAt_mono (j k : nat) : (j <= k)%nat -> tickAt j <= tickAt k.
Proof. unfold tickAt, tickerPeriod, Second. lia. Qed.

Lemma tickAt_S (k : nat) : tickAt k < tickAt (S k).
Proof. unfold tickAt, tickerPeriod, Second. lia. Qed.

Lemma timeoutAt_nonneg : 0 <= deadline.
Proof. unfold timeoutAt. lia. Qed.

Lemma wakeAt_le_timeout (k : nat) : wake k <= deadline.
Proof. unfold wakeAt. destruct cancelled; lia. Qed.

Lemma wakeAt_le_tick (k : nat) : wake k <= tickAt k.
Proof. unfold wakeAt. destruct cancelled; lia. Qed.

Lemma wakeAt_le_cancel (k : nat) (c : Z) : cancelled = Some c -> wake k <= c.
Proof. unfold wakeAt. intros ->. lia. Qed.

Lemma readyCases_spec (k : nat) (c : SelectCase) :
  In c (cases k) <-> ready k c = Some (wake k).
Proof.
  unfold readyCases. rewrite filter_In, bool_decide_eq_true.
  split; [tauto|]. intros H. split; [|exact H].
  destruct c; simpl; tauto.
Qed.

Lemma readyCases_attained (k : nat) : exists c, In c (cases k).
Proof.
  destruct cancelled as [c|] eqn:Hc.
  - destruct (Z.le_gt_cases c (Z.min deadline (tickAt k))).
    + exists CtxDone. apply readyCases_spec. simpl.
      unfold wakeAt. rewrite Hc. f_equal. lia.
    + destruct (Z.le_gt_cases deadline (tickAt k)).
      * exists TimeoutCh. apply readyCases_spec. simpl.
        unfold wakeAt. rewrite Hc. f_equal. lia.
      * exists TickerC. apply readyCases_spec. simpl.
        unfold wakeAt. rewrite Hc. f_equal. lia.
  - destruct (Z.le_gt_cases deadline (tickAt k)).
    + exists TimeoutCh. apply readyCases_spec. simpl.
      unfold wakeAt. rewrite Hc. f_equal. lia.
    + exists TickerC. apply readyCases_spec. simpl.
      unfold wakeAt. rewrite Hc. f_equal. lia.
Qed.

(** Whatever [select] picks was ready when it woke up. *)
Lemma selectCase_ready (k : nat) : ready k (chosen k) = Some (wake k).
Proof.
  apply readyCases_spec. unfold selectCase.
  case_bool_decide as Hin; [by apply list_elem_of_In|].
  destruct (readyCases_attained k) as [c Hc].
  destruct (cases k) as [|c0 l]; [destruct Hc | by left].
Qed.

Lemma select_tick (k : nat) :
  chosen k = TickerC ->
  tickAt k <= deadline /\ forall c, cancelled = Some c -> tickAt k <= c.
Proof.
  intros Hs. pose proof (selectCase_ready k) as Hr. rewrite Hs in Hr.
  simpl in Hr. injection Hr as Hr. rewrite Hr. split.
  - apply wakeAt_le_timeout.
  - intros c. apply wakeAt_le_cancel.
Qed.

Lemma select_timeout (k : nat) :
  chosen k = TimeoutCh ->
  deadline <= tickAt k /\ forall c, cancelled = Some c -> deadline <= c.
Proof.
  intros Hs. pose proof (selectCase_ready k) as Hr. rewrite Hs in Hr.
  simpl in Hr. injection Hr as Hr. rewrite Hr. split.
  - apply wakeAt_le_tick.
  - intros c. apply wakeAt_le_cancel.
Qed.

Lemma select_cancel (k : nat) :
  chosen k = CtxDone ->
  exists c, cancelled = Some c /\ c <= deadline /\ c <= tickAt k.
Proof.
  intros Hs. pose proof (selectCase_ready k) as Hr. rewrite Hs in Hr.
  simpl in Hr. exists (wake k). split; [exact Hr|]. split.
  - apply wakeAt_le_timeout.
  - apply wakeAt_le_tick.
Qed.

(** The loop returns before the fuel runs out, when the fuel covers every
    tick up to the timeout. *)
Lemma pollLoop_returns (fuel k : nat) :
  (0 < fuel)%nat ->
  deadline < tickerPeriod * (Z.of_nat k + Z.of_nat fuel) ->
  exists res, loop fuel k = Some res.
Proof.
  revert k. induction fuel as [|fuel IH]; intros k Hpos Hlt; [lia|].
  simpl. destruct (chosen k) eqn:Hs; eauto.
  destruct (tickBody (nodesList env k)); eauto.
  destruct fuel as [|fuel].
  - apply select_tick in Hs as [Hs _]. unfold tickAt in Hs. lia.
  - apply IH; lia.
Qed.

Lemma pollFuel_enough :
  deadline < tickerPeriod * (Z.of_nat 0 + Z.of_nat (pollFuel timeout)).
Proof.
  unfold pollFuel. pose proof timeoutAt_nonneg as H0.
  pose proof tickerPeriod_pos as Hp.
  rewrite Nat2Z.inj_succ, Z2Nat.id by (apply Z.div_pos; lia).
  pose proof (Z.mul_succ_div_gt deadline tickerPeriod Hp). lia.
Qed.

(** What a returning loop has done: every tick from [k] on was taken and
    polled, and the last step decided the result. *)
Lemma pollLoop_inv (fuel k : nat) (r : option error) (polls : nat) :
  loop fuel k = Some (r, polls) ->
  (k <= polls)%nat
  /\ (forall j, (k <= j < polls)%nat -> chosen j = TickerC)
  /\ match r with
     | None =>
         exists p, polls = S p /\ (k <= p)%nat
                   /\ tickBody (nodesList env p) = ReturnNil
     | Some e =>
         (e = errorString (ctxErr env) /\ chosen polls = CtxDone)
         \/ (e = timeoutError timeout /\ chosen polls = TimeoutCh)
     end.
Proof.
  revert k. induction fuel as [|fuel IH]; intros k; simpl; [discriminate|].
  destruct (chosen k) eqn:Hs.
  - intros [= <- <-]. split; [lia|]. split; [lia|]. by left.
  - intros [= <- <-]. split; [lia|]. split; [lia|]. by right.
  - destruct (tickBody (nodesList env k)) eqn:Hb.
    + intros H. apply IH in H as (Hle & Hall & Hr).
      split; [lia|]. split.
      * intros j Hj. destruct (decide (j = k)) as [->|Hne]; [exact Hs|].
        apply Hall. lia.
      * destruct r as [e|]; [exact Hr|].
        destruct Hr as (p & -> & Hp & Hret). exists p. repeat split; [lia|exact Hret].
    + intros [= <- <-]. split; [lia|]. split.
      * intros j Hj. assert (j = k) as -> by lia. exact Hs.
      * exists k. by repeat split.
Qed.

End GateProperties.

Lemma setupError_wrapped (env : GateEnv) (kc : string) (e : error) :
  setupError env kc = Some e -> outcome (Some e) = SetupFailed.
Proof.
  unfold setupError.
  destruct (createTempErr env); [by intros [= <-]|].
  destruct (writeStringErr env kc); [by intros [= <-]|].
  destruct (closeErr env); [by intros [= <-]|].
  destruct (buildConfigErr env kc); [by intros [= <-]|].
  destruct (newForConfigErr env); [by intros [= <-]|discriminate].
Qed.

Lemma waitForAllNodesReady_returns (env : GateEnv) (timeout : Z) (kc : string) :
  exists res, waitForAllNodesReady env timeout kc = Some res.
Proof.
  unfold waitForAllNodesReady. destruct (setupError env kc); [eauto|].
  apply pollLoop_returns; [unfold pollFuel; lia | apply pollFuel_enough].
Qed.

(** C3.  The gate returns success only when some poll it made was answered
    with at least one node and every node of that answer carries a
    condition of type Ready with status True; and an answer with no node
    makes the loop go round again, to the next tick. *)
Theorem success_only_when_all_nodes_ready
    (env : GateEnv) (timeout : Z) (kubeconfigContent : string) :
  (forall polls : nat,
     waitForAllNodesReady env timeout kubeconfigContent = Some (None, polls) ->
     exists (k : nat) (nodes : list corev1.Node),
       (k < polls)%nat
       /\ nodesList env k = Ok nodes
       /\ (1 <= length nodes)%nat
       /\ forall node, In node nodes ->
            exists c, In c (corev1.Conditions node)
                      /\ corev1.Type_ c = "Ready" /\ corev1.Status c = "True")
  /\ (forall fuel k : nat,
       selectCase env timeout k = TickerC ->
       nodesList env k = Ok [] ->
       pollLoop env timeout (S fuel) k = pollLoop env timeout fuel (S k)).
Proof.
  split.
  - intros polls H. unfold waitForAllNodesReady in H.
    destruct (setupError env kubeconfigContent); [discriminate H|].
    apply pollLoop_inv in H as (_ & _ & p & -> & _ & Hret).
    apply tickBody_ReturnNil in Hret as (nodes & Hans & Hlen & Hall).
    exists p, nodes. repeat split; [lia | exact Hans | exact Hlen |].
    by apply allReady_true.
  - intros fuel k Hs Hans. simpl. by rewrite Hs, Hans.
Qed.

Lemma success_only_when_all_nodes_ready_witness :
  exists (k : nat) (nodes : list corev1.Node),
    (k < 4)%nat
    /\ warmingUp k = Ok nodes
    /\ (1 <= length nodes)%nat
    /\ forall node, In node nodes ->
         exists c, In c (corev1.Conditions node)
                   /\ corev1.Type_ c = "Ready" /\ corev1.Status c = "True".
Proof.
  apply (proj1 (success_only_when_all_nodes_ready
                  (gateEnv None warmingUp) (300 * Second) "apiVersion: v1") 4%nat).
  vm_compute. reflexivity.
Defined.

(** C4 as the code has it.  The gate always returns.  When a step of the
    set-up fails it returns that error, wrapped with the name of the step,
    without polling.  Otherwise it returns exactly one of: [nil], after a
    poll that found every node ready; the context's error, at the instant
    the context is cancelled, every poll having been made no later than that
    instant; the timeout error, which names the timeout, at the instant the
    timeout fires, every poll having been made no later than that instant. *)
Theorem waitForAllNodesReady_outcomes
    (env : GateEnv) (timeout : Z) (kubeconfigContent : string) :
  exists (r : option error) (polls : nat),
    waitForAllNodesReady env timeout kubeconfigContent = Some (r, polls)
    /\ match setupError env kubeconfigContent with
       | Some e => r = Some e /\ polls = 0%nat /\ outcome r = SetupFailed
       | None =>
           match outcome r with
           | Success =>
               r = None
               /\ exists p, polls = S p
                           /\ tickBody (nodesList env p) = ReturnNil
           | Cancelled =>
               r = Some (errorString (ctxErr env))
               /\ exists c, cancelAt env = Some c
                           /\ c <= timeoutAt timeout
                           /\ c <= tickAt polls
                           /\ forall j, (j < polls)%nat -> tickAt j <= c
           | TimedOut =>
               r = Some (timeoutError timeout)
               /\ (forall Duration_String : Z -> string,
                     Error Duration_String (timeoutError timeout)
                     = "timeout waiting for nodes to be ready after "
                         +:+ Duration_String timeout)
               /\ timeoutAt timeout <= tickAt polls
               /\ (forall c, cancelAt env = Some c -> timeoutAt timeout <= c)
               /\ forall j, (j < polls)%nat -> tickAt j <= timeoutAt timeout
           | SetupFailed => False
           end
       end.
Proof.
  destruct (waitForAllNodesReady_returns env timeout kubeconfigContent)
    as [[r polls] Hres].
  exists r, polls. split; [exact Hres|].
  unfold waitForAllNodesReady in Hres.
  destruct (setupError env kubeconfigContent) as [e|] eqn:Hsetup.
  - injection Hres as <- <-. repeat split. by eapply setupError_wrapped.
  - apply pollLoop_inv in Hres as (_ & Hticks & Hr).
    destruct r as [e|].
    + destruct Hr as [[-> Hs]|[-> Hs]]; simpl.
      * split; [reflexivity|].
        apply select_cancel in Hs as (c & Hc & Hct & Hck).
        exists c. repeat split; try assumption.
        intros j Hj.
        apply (proj2 (select_tick env timeout j (Hticks j ltac:(lia))) c Hc).
      * apply select_timeout in Hs as [Hk Hc].
        repeat split; try assumption.
        intros j Hj.
        apply (proj1 (select_tick env timeout j (Hticks j ltac:(lia)))).
    + simpl. split; [reflexivity|].
      destruct Hr as (p & -> & _ & Hret). by exists p.
Qed.

Lemma waitForAllNodesReady_outcomes_witness :
  waitForAllNodesReady (gateEnv (Some (12 * Second)) warmingUp) (300 * Second)
    "apiVersion: v1"
  = Some (Some (errorString "context canceled"), 2%nat).
Proof.
  destruct (waitForAllNodesReady_outcomes
              (gateEnv (Some (12 * Second)) warmingUp) (300 * Second)
              "apiVersion: v1") as (r & polls & Hres & _).
  rewrite Hres. revert Hres. vm_compute. by intros [= <- <-].
Defined.

(** C4, as stated, fails: a credential bundle the client library cannot
    load makes the gate return an error that is neither success, nor the
    cancellation, nor the timeout. *)
Lemma waitForAllNodesReady_setup_failure :
  exists e : error,
    waitForAllNodesReady rejectingGateEnv (300 * Second) "not a kubeconfig"
    = Some (Some e, 0%nat)
    /\ e = wrapError "failed to build kubeconfig"
            (errorString "invalid configuration: no configuration has been provided")
    /\ e <> errorString (ctxErr rejectingGateEnv)
    /\ e <> timeoutError (300 * Second)
    /\ outcome (Some e) = SetupFailed.
Proof.
  eexists. split; [vm_compute; reflexivity|].
  repeat split; discriminate.
Qed.

(** C10 as the code has it.  With a timeout shorter than the ticker period,
    once the set-up has succeeded and unless the context is cancelled at or
    before the instant the timeout fires, the gate returns the timeout error
    without a single poll, whatever the status endpoint would answer. *)
Theorem short_timeout_times_out
    (env : GateEnv) (timeout : Z) (kubeconfigContent : string) :
  timeout < tickerPeriod ->
  setupError env kubeconfigContent = None ->
  (forall t, ctxDoneAt env = Some t -> timeoutAt timeout < t) ->
  waitForAllNodesReady env timeout kubeconfigContent
  = Some (Some (timeoutError timeout), 0%nat).
Proof.
  intros Hshort Hsetup Hctx.
  unfold waitForAllNodesReady. rewrite Hsetup. unfold pollFuel. simpl.
  destruct (selectCase env timeout 0) eqn:Hs.
  - exfalso. apply select_cancel in Hs as (c & Hc & Hct & _).
    unfold cancelAt in Hc. destruct (ctxDoneAt env) as [t|]; [|discriminate Hc].
    injection Hc as <-. specialize (Hctx t eq_refl). lia.
  - reflexivity.
  - exfalso. apply select_tick in Hs as [Hs _].
    unfold tickAt, timeoutAt, tickerPeriod, Second in *. lia.
Qed.

Lemma short_timeout_times_out_witness :
  waitForAllNodesReady (gateEnv (Some (4 * Second)) alwaysReady) (3 * Second)
    "apiVersion: v1"
  = Some (Some (timeoutError (3 * Second)), 0%nat).
Proof.
  apply short_timeout_times_out.
  - unfold tickerPeriod, Second. lia.
  - reflexivity.
  - intros t [= <-]. unfold timeoutAt, Second. lia.
Defined.

(** C10, as stated, fails: with a timeout of 3 seconds and a context
    cancelled after 1 second the gate returns the cancellation, not the
    timeout error. *)
Lemma short_timeout_cancelled_first :
  3 * Second < tickerPeriod
  /\ waitForAllNodesReady (gateEnv (Some (1 * Second)) alwaysReady) (3 * Second)
       "apiVersion: v1"
     = Some (Some (errorString "context canceled"), 0%nat)
  /\ waitForAllNodesReady (gateEnv (Some (1 * Second)) alwaysReady) (3 * Second)
       "apiVersion: v1"
     <> Some (Some (timeoutError (3 * Second)), 0%nat).
Proof.
  split; [unfold tickerPeriod, Second; lia|].
  split; [vm_compute; reflexivity | vm_compute; discriminate].
Qed.

(** ** Lock recovery *)

Lemma time_Since_stale (w : World) (modTime : Z) :
  60 * Second < time_Since w modTime <-> 60 * Second < now w - modTime.
Proof.
  unfold time_Since, minDuration, maxDuration, Second.
  change (2 ^ 63) with 9223372036854775808. lia.
Qed.

Lemma os_Stat_Ok (w : World) (path : string) (modTime : Z) :
  os_Stat w path = Ok modTime -> files w !! path = Some modTime.
Proof.
  unfold os_Stat. destruct (statErr w path); [discriminate|].
  destruct (files w !! path); [by intros [= ->] | discriminate].
Qed.

(** C9.  Lock recovery leaves the world as it is when the lock file is 60
    seconds old or younger; when the lock file is there and strictly older
    it issues the removal, which deletes the file unless the removal itself
    fails; and when the home directory is missing, the file cannot be
    examined or the removal fails, it returns all the same: the function
    has no result through which a failure could reach its caller. *)
Theorem cleanupStaleLockFile_spec (filepath_Join : list string -> string) (w : World) :
  (forall homeDir modTime,
     UserHomeDir w = Ok homeDir ->
     os_Stat w (lockFilePath filepath_Join homeDir) = Ok modTime ->
     (now w - modTime <= 60 * Second ->
        cleanupStaleLockFile filepath_Join w = w)
     /\ (60 * Second < now w - modTime ->
        log (cleanupStaleLockFile filepath_Join w)
          = log w ++ [CallRemove (lockFilePath filepath_Join homeDir)]
        /\ (removeErr w (lockFilePath filepath_Join homeDir) = None ->
            files (cleanupStaleLockFile filepath_Join w)
              = delete (lockFilePath filepath_Join homeDir) (files w))
        /\ (forall e, removeErr w (lockFilePath filepath_Join homeDir) = Some e ->
            files (cleanupStaleLockFile filepath_Join w) = files w)))
  /\ (forall e, UserHomeDir w = Err e -> cleanupStaleLockFile filepath_Join w = w)
  /\ (forall homeDir e,
       UserHomeDir w = Ok homeDir ->
       os_Stat w (lockFilePath filepath_Join homeDir) = Err e ->
       cleanupStaleLockFile filepath_Join w = w).
Proof.
  split; [|split].
  - intros homeDir modTime Hhome Hstat. unfold cleanupStaleLockFile.
    rewrite Hhome, Hstat. split.
    + intros Hyoung. destruct (Z.ltb_spec (60 * Second) (time_Since w modTime)) as [H|H];
        [|reflexivity].
      apply time_Since_stale in H. lia.
    + intros Hold. apply time_Since_stale in Hold.
      destruct (Z.ltb_spec (60 * Second) (time_Since w modTime)) as [H|H]; [|lia].
      apply os_Stat_Ok in Hstat. unfold os_Remove. simpl.
      destruct (removeErr w (lockFilePath filepath_Join homeDir)) as [e|] eqn:Hrm;
        simpl.
      * split; [reflexivity|]. split; [discriminate|]. reflexivity.
      * rewrite Hstat. simpl. split; [reflexivity|]. split; [reflexivity|].
        discriminate.
  - intros e Hhome. unfold cleanupStaleLockFile. by rewrite Hhome.
  - intros homeDir e Hhome Hstat. unfold cleanupStaleLockFile.
    by rewrite Hhome, Hstat.
Qed.

Lemma cleanupStaleLockFile_spec_witness :
  files (cleanupStaleLockFile joinSlash
           (sampleWorld None (Ok kubeconfigNoUsers) (gateEnv None alwaysReady)
              {[ sampleLock := 1000 * Second ]} (1061 * Second)))
    !! sampleLock = None
  /\ cleanupStaleLockFile joinSlash
       (sampleWorld None (Ok kubeconfigNoUsers) (gateEnv None alwaysReady)
          {[ sampleLock := 1000 * Second ]} (1060 * Second))
     = sampleWorld None (Ok kubeconfigNoUsers) (gateEnv None alwaysReady)
         {[ sampleLock := 1000 * Second ]} (1060 * Second).
Proof.
  split.
  - destruct (cleanupStaleLockFile_spec joinSlash
                (sampleWorld None (Ok kubeconfigNoUsers) (gateEnv None alwaysReady)
                   {[ sampleLock := 1000 * Second ]} (1061 * Second)))
      as (H & _).
    destruct (H "/home/dev" (1000 * Second) eq_refl eq_refl) as (_ & Hold).
    destruct Hold as (_ & Hgone & _); [simpl; unfold Second; lia|].
    rewrite (Hgone eq_refl). apply lookup_delete_eq.
  - destruct (cleanupStaleLockFile_spec joinSlash
                (sampleWorld None (Ok kubeconfigNoUsers) (gateEnv None alwaysReady)
                   {[ sampleLock := 1000 * Second ]} (1060 * Second)))
      as (H & _).
    destruct (H "/home/dev" (1000 * Second) eq_refl eq_refl) as (Hyoung & _).
    apply Hyoung. simpl. unfold Second. lia.
Defined.

(** ** Credential extraction *)

Section ProviderProperties.

Variable Duration_String : Z -> string.
Variable filepath_Join : list string -> string.
Variable yaml_Unmarshal : string -> Result (gmap string iface).

Local Abbreviation populate :=
  (populateComputedValues Duration_String filepath_Join yaml_Unmarshal).

(** A bundle that does not decode: one error is reported and none of the
    four derived fields is written. *)
Lemma populateComputedValues_parse_failure
    (data : ClusterResourceModel.t) (diags : diag.Diagnostics) (w : World)
    (kubeconfig homeDir : string) (err : error) :
  providerKubeConfig w (types.ValueString (ClusterResourceModel.Name data)) false
    = Ok kubeconfig ->
  UserHomeDir w = Ok homeDir ->
  yaml_Unmarshal kubeconfig = Err err ->
  let '(data', diags', _) := populate data diags w in
  diags' = diag.AddError diags "Failed to parse kubeconfig" (Error Duration_String err)
  /\ ClusterResourceModel.Endpoint data' = ClusterResourceModel.Endpoint data
  /\ ClusterResourceModel.ClusterCaCertificate data'
     = ClusterResourceModel.ClusterCaCertificate data
  /\ ClusterResourceModel.ClientCertificate data'
     = ClusterResourceModel.ClientCertificate data
  /\ ClusterResourceModel.ClientKey data' = ClusterResourceModel.ClientKey data.
Proof.
  intros Hkc Hhome Hyaml. unfold populateComputedValues. simpl.
  rewrite Hkc, Hhome, Hyaml. by repeat split.
Qed.

(** A bundle that decodes: no error is added, and a derived field the bundle
    lacks ends as the empty string when the model held null for it, and
    keeps what the model held otherwise. *)
Lemma populateComputedValues_parsed
    (data : ClusterResourceModel.t) (diags : diag.Diagnostics) (w : World)
    (kubeconfig homeDir : string) (doc : gmap string iface) :
  providerKubeConfig w (types.ValueString (ClusterResourceModel.Name data)) false
    = Ok kubeconfig ->
  UserHomeDir w = Ok homeDir ->
  yaml_Unmarshal kubeconfig = Ok doc ->
  let '(data', diags', _) := populate data diags w in
  diags' = diags
  /\ ClusterResourceModel.Endpoint data'
     = emptyIfNull (extractString (firstEntry doc "clusters" "cluster") "server"
                      (ClusterResourceModel.Endpoint data))
  /\ ClusterResourceModel.ClusterCaCertificate data'
     = emptyIfNull (extractString (firstEntry doc "clusters" "cluster")
                      "certificate-authority-data"
                      (ClusterResourceModel.ClusterCaCertificate data))
  /\ ClusterResourceModel.ClientCertificate data'
     = emptyIfNull (extractString (firstEntry doc "users" "user")
                      "client-certificate-data"
                      (ClusterResourceModel.ClientCertificate data))
  /\ ClusterResourceModel.ClientKey data'
     = emptyIfNull (extractString (firstEntry doc "users" "user") "client-key-data"
                      (ClusterResourceModel.ClientKey data)).
Proof.
  intros Hkc Hhome Hyaml. unfold populateComputedValues. simpl.
  rewrite Hkc, Hhome, Hyaml. by repeat split.
Qed.

Lemma absent_field (info : option (gmap string iface)) (key : string)
    (field : types.String) :
  info ≫= (fun m => asStr (mapIndex m key)) = None ->
  emptyIfNull (extractString info key field)
  = match field with
    | types.StringNull => types.StringValue ""
    | _ => field
    end.
Proof.
  intros H. unfold extractString. rewrite H. by destruct field.
Qed.

End ProviderProperties.

(** C2 at a bundle without a ["users"] section, in the model [Create] works
    on, where the computed attributes are unknown: the bundle decodes and no
    error is reported, the endpoint and the CA certificate are extracted,
    and the client certificate and the client key are left unknown; they are
    not set to the empty string. *)
Theorem populateComputedValues_leaves_unknown_fields :
  let '(data, diags, _) :=
    populateComputedValues secondsString joinSlash decodeSample
      (planModel "dev" [] types.ListNull) []
      (sampleWorld None (Ok kubeconfigNoUsers) (gateEnv None alwaysReady) ∅ 0) in
  diags = []
  /\ firstEntry docNoUsers "users" "user" = None
  /\ ClusterResourceModel.Endpoint data = types.StringValue "https://127.0.0.1:6443"
  /\ ClusterResourceModel.ClusterCaCertificate data = types.StringValue "Q0E="
  /\ ClusterResourceModel.ClientCertificate data = types.StringUnknown
  /\ ClusterResourceModel.ClientKey data = types.StringUnknown
  /\ ClusterResourceModel.ClientKey data <> types.StringValue "".
Proof.
  vm_compute. repeat split. discriminate.
Qed.

(** ** Create *)

Lemma AddError_fresh (ds : diag.Diagnostics) (summary detail : string) :
  diag.HasError ds = false ->
  diag.AddError ds summary detail
  = ds ++ [diag.Build diag.SeverityError summary detail].
Proof.
  intros Hno. unfold diag.AddError, diag.Append, diag.Contains. simpl.
  case_bool_decide as Hin; [|reflexivity].
  exfalso. apply list_elem_of_In in Hin.
  assert (diag.HasError ds = true) as Ht; [|congruence].
  unfold diag.HasError. apply existsb_exists. eexists. split; [exact Hin|reflexivity].
Qed.

Lemma HasError_AddError (ds : diag.Diagnostics) (summary detail : string) :
  diag.HasError ds = false ->
  diag.HasError (diag.AddError ds summary detail) = true.
Proof.
  intros Hno. rewrite AddError_fresh by exact Hno.
  unfold diag.HasError. rewrite existsb_app. simpl. by rewrite orb_true_r.
Qed.

(** Lock recovery touches the files and the log, and nothing else. *)
Lemma cleanupStaleLockFile_frame (filepath_Join : list string -> string) (w : World) :
  let w' := cleanupStaleLockFile filepath_Join w in
  UserHomeDir w' = UserHomeDir w
  /\ providerCreate w' = providerCreate w
  /\ providerKubeConfig w' = providerKubeConfig w
  /\ gate w' = gate w
  /\ exists removals, log w' = log w ++ removals /\ Forall isRemove removals.
Proof.
  assert (Hsame : exists removals : list Call,
             log w = log w ++ removals /\ Forall isRemove removals).
  { exists []. by rewrite app_nil_r. }
  unfold cleanupStaleLockFile.
  destruct (UserHomeDir w) as [homeDir|e] eqn:Hhome; [|by rewrite Hhome].
  destruct (os_Stat w (lockFilePath filepath_Join homeDir)); [|by rewrite Hhome].
  destruct (60 * Second <? time_Since w a); [|by rewrite Hhome].
  unfold os_Remove. simpl.
  destruct (removeErr w (lockFilePath filepath_Join homeDir)); simpl.
  - repeat split; try assumption. eexists. split; [reflexivity|].
    by repeat constructor.
  - destruct (files w !! lockFilePath filepath_Join homeDir); simpl;
      (repeat split; try assumption; eexists; split; [reflexivity|];
       by repeat constructor).
Qed.

Lemma log_logCall (c : Call) (w : World) : log (logCall c w) = log w ++ [c].
Proof. reflexivity. Qed.

Lemma gate_logCall (c : Call) (w : World) : gate (logCall c w) = gate w.
Proof. reflexivity. Qed.

Lemma logPolls_frame (polls : nat) (w : World) :
  log (logPolls polls w) = log w ++ map CallNodesList (seq 0 polls).
Proof.
  unfold logPolls. generalize 0%nat. revert w.
  induction polls as [|n IH]; intros w k; simpl; [by rewrite app_nil_r|].
  rewrite IH. simpl. by rewrite <- app_assoc.
Qed.

Section CreateProperties.

Variable Duration_String : Z -> string.
Variable filepath_Join : list string -> string.
Variable yaml_Unmarshal : string -> Result (gmap string iface).

Local Abbreviation create :=
  (Create Duration_String filepath_Join yaml_Unmarshal).

(** C6.  When the plan decodes and the backend's create fails, [Create]
    ends with one more diagnostic, the error "Failed to create cluster"
    whose detail is the backend's message as it is; no state is stored, and
    the backend is not asked for the credential bundle, so no computed field
    is derived. *)
Theorem create_backend_failure (req : CreateRequest) (w : World) (err : error) :
  diag.HasError (diag.Append [] (PlanGetDiags req)) = false ->
  providerCreate w (types.ValueString (ClusterResourceModel.Name (PlanData req)))
    (createOptions (PlanData req)) = Some err ->
  exists (resp : CreateResponse) (w' : World) (removals : list Call),
    create req w = Some (resp, w')
    /\ Diagnostics resp
       = diag.Append [] (PlanGetDiags req)
         ++ [diag.Build diag.SeverityError "Failed to create cluster"
               (Error Duration_String err)]
    /\ (forall msg, err = errorString msg -> Error Duration_String err = msg)
    /\ State resp = None
    /\ log w'
       = log w ++ removals
         ++ [CallProviderCreate
               (types.ValueString (ClusterResourceModel.Name (PlanData req)))
               (createOptions (PlanData req))]
    /\ Forall isRemove removals.
Proof.
  intros Hplan Hcreate.
  destruct (cleanupStaleLockFile_frame filepath_Join w)
    as (_ & Hpc & _ & _ & removals & Hlog & Hrem).
  unfold Create. cbv zeta. rewrite Hplan.
  cbn [providerCreate logCall]. rewrite Hpc, Hcreate.
  eexists _, _, removals. split; [reflexivity|]. cbn [Diagnostics State log].
  split; [by apply AddError_fresh|].
  split; [by intros msg ->|].
  split; [reflexivity|].
  split; [by rewrite log_logCall, Hlog, <- app_assoc | exact Hrem].
Qed.

(** C5 as the code has it.  When the backend's create succeeds, the
    credential bundle is extracted, the gate is enabled and the gate returns
    an error, [Create] ends with one more diagnostic, the error "Failed
    waiting for nodes to be ready" with the gate's message; it makes no
    delete call to the backend; and it returns before the state is stored,
    so the response carries no state. *)
Theorem create_gate_failure (req : CreateRequest) (w : World)
    (kubeconfig homeDir : string) (doc : gmap string iface)
    (gateErr : error) (polls : nat) :
  let data := PlanData req in
  let name := types.ValueString (ClusterResourceModel.Name data) in
  diag.HasError (diag.Append [] (PlanGetDiags req)) = false ->
  providerCreate w name (createOptions data) = None ->
  providerKubeConfig w name false = Ok kubeconfig ->
  UserHomeDir w = Ok homeDir ->
  yaml_Unmarshal kubeconfig = Ok doc ->
  ClusterResourceModel.WaitForNodesReady data = types.BoolValue true ->
  waitForAllNodesReady (gate w)
    (seconds (types.ValueInt64 (ClusterResourceModel.WaitForReady data)))
    kubeconfig = Some (Some gateErr, polls) ->
  exists (resp : CreateResponse) (w' : World) (calls removals : list Call),
    create req w = Some (resp, w')
    /\ Diagnostics resp
       = diag.Append [] (PlanGetDiags req)
         ++ [diag.Build diag.SeverityError "Failed waiting for nodes to be ready"
               (Error Duration_String gateErr)]
    /\ State resp = None
    /\ log w' = log w ++ calls
    /\ calls
       = removals
         ++ [CallProviderCreate name (createOptions data);
             CallProviderKubeConfig name false]
         ++ map CallNodesList (seq 0 polls)
    /\ Forall isRemove removals
    /\ Forall (fun c => ~ isDelete c) calls.
Proof.
  intros data name Hplan Hcreate Hkc Hhome Hyaml Hwait Hgate.
  destruct (cleanupStaleLockFile_frame filepath_Join w)
    as (Hhd & Hpc & Hpk & Hg & removals & Hlog & Hrem).
  unfold Create. cbv zeta. rewrite Hplan.
  cbn [providerCreate logCall]. rewrite Hpc. fold data. fold name.
  rewrite Hcreate.
  unfold populateComputedValues. cbv zeta.
  cbn [providerKubeConfig UserHomeDir logCall]. fold name.
  rewrite Hpk, Hhd, Hkc, Hhome, Hyaml.
  rewrite Hplan.
  cbn [setComputed ClusterResourceModel.WaitForNodesReady
       ClusterResourceModel.WaitForReady ClusterResourceModel.Kubeconfig
       types.ValueString gate].
  fold data. rewrite Hwait. cbn [types.Bool_IsNull types.ValueBool negb andb].
  rewrite !gate_logCall, Hg, Hgate.
  eexists _, _, _, removals. split; [reflexivity|]. cbn [Diagnostics State].
  split; [by apply AddError_fresh|].
  split; [reflexivity|].
  split.
  { rewrite logPolls_frame, !log_logCall, Hlog, <- !app_assoc. reflexivity. }
  split; [reflexivity|].
  split; [exact Hrem|].
  apply Forall_forall. intros c Hc Hd.
  destruct c as [| |n p| |]; simpl in Hd; try contradiction.
  rewrite !elem_of_app in Hc. destruct Hc as [Hc|[Hc|[Hc|Hc]]].
  - rewrite Forall_forall in Hrem. exact (Hrem _ Hc).
  - apply list_elem_of_In in Hc. destruct Hc as [Hc|[]]. discriminate Hc.
  - apply list_elem_of_In in Hc. destruct Hc as [Hc|[]]. discriminate Hc.
  - apply list_elem_of_In, in_map_iff in Hc.
    destruct Hc as (k & Hk & _). discriminate Hk.
Qed.

(** [Create] returns: the gate it may call does. *)
Lemma Create_returns (req : CreateRequest) (w : World) :
  exists res, create req w = Some res.
Proof.
  unfold Create. cbv zeta.
  destruct (diag.HasError (diag.Append [] (PlanGetDiags req))); [eauto|].
  match goal with |- context [providerCreate ?w0 ?n ?o] =>
    destruct (providerCreate w0 n o) end; [eauto|].
  match goal with |- context [populateComputedValues ?a ?b ?c ?d ?e ?f] =>
    destruct (populateComputedValues a b c d e f) as [[data diags] w1] end.
  destruct (diag.HasError diags); [eauto|].
  match goal with |- context [if ?b then _ else _] => destruct b end; [|eauto].
  match goal with |- context [waitForAllNodesReady ?g ?t ?k] =>
    destruct (waitForAllNodesReady_returns g t k) as [[[e|] polls] ->] end; eauto.
Qed.

End CreateProperties.

Lemma create_backend_failure_witness :
  exists (resp : CreateResponse) (w' : World),
    Create secondsString joinSlash decodeSample sampleRequest worldCreateFails
    = Some (resp, w')
    /\ Diagnostics resp
       = [diag.Build diag.SeverityError "Failed to create cluster" "image not found"]
    /\ State resp = None
    /\ log w' = [CallProviderCreate "dev" (createOptions (PlanData sampleRequest))].
Proof.
  destruct (create_backend_failure secondsString joinSlash decodeSample
              sampleRequest worldCreateFails (errorString "image not found")
              eq_refl eq_refl)
    as (resp & w' & removals & Hres & Hdiags & _ & Hstate & Hlog & _).
  exists resp, w'. split; [exact Hres|]. split; [exact Hdiags|].
  split; [exact Hstate|].
  clear Hlog. revert Hres. vm_compute. intros [= <- <-]. reflexivity.
Defined.

Lemma create_gate_failure_witness :
  exists (resp : CreateResponse) (w' : World),
    Create secondsString joinSlash decodeSample sampleRequest worldNeverReady
    = Some (resp, w')
    /\ Diagnostics resp
       = [diag.Build diag.SeverityError "Failed waiting for nodes to be ready"
            "timeout waiting for nodes to be ready after 300s"]
    /\ State resp = None.
Proof.
  destruct (create_gate_failure secondsString joinSlash decodeSample
              sampleRequest worldNeverReady kubeconfigNoUsers "/home/dev"
              docNoUsers (timeoutError (300 * Second)) 59%nat
              eq_refl eq_refl eq_refl eq_refl eq_refl eq_refl
              ltac:(vm_compute; reflexivity))
    as (resp & w' & calls & removals & Hres & Hdiags & Hstate & _).
  exists resp, w'. split; [exact Hres|]. split; [|exact Hstate].
  rewrite Hdiags. vm_compute. reflexivity.
Defined.

(** C5, as stated, fails in its last part: the backend created the cluster,
    the gate timed out, the error is reported and no delete call is made,
    but the response carries no state: nothing is recorded for the
    resource. *)
Lemma create_gate_failure_records_no_state :
  exists (resp : CreateResponse) (w' : World),
    Create secondsString joinSlash decodeSample sampleRequest worldNeverReady
    = Some (resp, w')
    /\ providerCreate worldNeverReady "dev" (createOptions (PlanData sampleRequest))
       = None
    /\ In (CallProviderCreate "dev" (createOptions (PlanData sampleRequest))) (log w')
    /\ diag.HasError (Diagnostics resp) = true
    /\ Forall (fun c => ~ isDelete c) (log w')
    /\ State resp = None
    /\ ~ (exists data, State resp = Some data).
Proof.
  eexists _, _. split; [vm_compute; reflexivity|].
  split; [reflexivity|].
  split; [left; reflexivity|].
  split; [reflexivity|].
  split; [|split; [reflexivity | by intros [data Hd]]].
  repeat constructor; by intros [].
Qed.

(** * Further properties *)

(** ** The synthesizer: lists, maps, ports and options *)

Lemma collectStrings_strings (vs : list types.String) :
  collectStrings (map types.VString vs)
  = map types.ValueString (List.filter notNull vs).
Proof.
  unfold collectStrings.
  induction vs as [|v vs IH]; [reflexivity|].
  destruct v as [| |s]; simpl; [exact IH | f_equal; exact IH | f_equal; exact IH].
Qed.

Lemma stringList_strings (vs : list types.String) :
  stringList (types.ListValue (map types.VString vs))
  = map types.ValueString (List.filter notNull vs).
Proof.
  unfold stringList. cbn [types.List_IsNull types.List_Elements negb andb].
  destruct vs as [|v vs]; [reflexivity|].
  cbn [map length Nat.ltb Nat.leb]. apply (collectStrings_strings (v :: vs)).
Qed.

(** X1.  A list-of-strings attribute loses its null elements on the way into
    the spec: the synthesized list holds the strings of the elements that
    are not null, in their order (an unknown element as the empty string),
    so it can be shorter than the declared list. *)
Theorem string_lists_skip_null_elements
    (data : ClusterResourceModel.t) (vs : list types.String) :
  (ClusterResourceModel.ContainerdConfigPatches data
     = types.ListValue (map types.VString vs) ->
   v1alpha4.Cluster.ContainerdConfigPatches (buildClusterConfig data)
     = map types.ValueString (List.filter notNull vs))
  /\ (ClusterResourceModel.ContainerdConfigPatchesJSON6902 data
       = types.ListValue (map types.VString vs) ->
     v1alpha4.Cluster.ContainerdConfigPatchesJSON6902 (buildClusterConfig data)
       = map types.ValueString (List.filter notNull vs))
  /\ (ClusterResourceModel.KubeadmConfigPatches data
       = types.ListValue (map types.VString vs) ->
     v1alpha4.Cluster.KubeadmConfigPatches (buildClusterConfig data)
       = map types.ValueString (List.filter notNull vs)
     /\ (length (v1alpha4.Cluster.KubeadmConfigPatches (buildClusterConfig data))
         <= length vs)%nat).
Proof.
  split; [|split].
  - intros Hl. simpl. by rewrite Hl, stringList_strings.
  - intros Hl. simpl. by rewrite Hl, stringList_strings.
  - intros Hl. simpl. rewrite Hl, stringList_strings. split; [reflexivity|].
    rewrite length_map. apply List.filter_length_le.
Qed.

Lemma string_lists_skip_null_elements_witness :
  v1alpha4.Cluster.ContainerdConfigPatches
    (buildClusterConfig
       (planWith types.StringNull 300 types.MapNull types.MapNull
          (types.ListValue
             (map types.VString
                [types.StringValue "a"; types.StringNull; types.StringValue "b"]))))
  = ["a"; "b"].
Proof.
  apply (proj1 (string_lists_skip_null_elements
                  (planWith types.StringNull 300 types.MapNull types.MapNull
                     (types.ListValue
                        (map types.VString
                           [types.StringValue "a"; types.StringNull;
                            types.StringValue "b"])))
                  [types.StringValue "a"; types.StringNull; types.StringValue "b"])).
  reflexivity.
Defined.

Lemma int32_range (x : Z) : - 2 ^ 31 <= int32 x < 2 ^ 31.
Proof.
  unfold int32. pose proof (Z.mod_pos_bound (x + 2 ^ 31) (2 ^ 32)). lia.
Qed.

Lemma int32_small (x : Z) : - 2 ^ 31 <= x < 2 ^ 31 -> int32 x = x.
Proof.
  intros H. unfold int32. rewrite Z.mod_small by lia. lia.
Qed.

Lemma int32_fixed (x : Z) : int32 x = x -> - 2 ^ 31 <= x < 2 ^ 31.
Proof. intros H. rewrite <- H. apply int32_range. Qed.

Lemma int32_congruent (x : Z) : (int32 x - x) `mod` 2 ^ 32 = 0.
Proof.
  unfold int32.
  replace ((x + 2 ^ 31) `mod` 2 ^ 32 - 2 ^ 31 - x)
    with ((x + 2 ^ 31) `mod` 2 ^ 32 - (x + 2 ^ 31)) by lia.
  rewrite Zminus_mod, Z.mod_mod, Z.sub_diag by lia. reflexivity.
Qed.

(** X2.  The ports of a port mapping are converted to 32 bits: a declared
    port is kept exactly when it fits a signed 32-bit integer, and any other
    value is silently wrapped modulo 2^32 into that range. *)
Theorem port_mapping_ports_wrap (pm : PortMappingModel.t) :
  let out := buildPortMapping pm in
  let c := types.ValueInt64 (PortMappingModel.ContainerPort pm) in
  let h := types.ValueInt64 (PortMappingModel.HostPort pm) in
  (v1alpha4.PortMapping.ContainerPort out = c <-> - 2 ^ 31 <= c < 2 ^ 31)
  /\ (v1alpha4.PortMapping.HostPort out = h <-> - 2 ^ 31 <= h < 2 ^ 31)
  /\ - 2 ^ 31 <= v1alpha4.PortMapping.ContainerPort out < 2 ^ 31
  /\ - 2 ^ 31 <= v1alpha4.PortMapping.HostPort out < 2 ^ 31
  /\ (v1alpha4.PortMapping.ContainerPort out - c) `mod` 2 ^ 32 = 0
  /\ (v1alpha4.PortMapping.HostPort out - h) `mod` 2 ^ 32 = 0.
Proof.
  cbn zeta. cbn [buildPortMapping v1alpha4.PortMapping.ContainerPort
                 v1alpha4.PortMapping.HostPort].
  split; [split; [apply int32_fixed | apply int32_small]|].
  split; [split; [apply int32_fixed | apply int32_small]|].
  split; [apply int32_range|]. split; [apply int32_range|].
  split; apply int32_congruent.
Qed.

Lemma port_mapping_ports_wrap_witness :
  v1alpha4.PortMapping.HostPort (buildPortMapping (portMapping 80 8080)) = 8080
  /\ v1alpha4.PortMapping.HostPort (buildPortMapping (portMapping 80 4294967376)) = 80.
Proof.
  split.
  - apply (proj1 (proj2 (port_mapping_ports_wrap (portMapping 80 8080)))).
    simpl. lia.
  - pose proof (port_mapping_ports_wrap (portMapping 80 4294967376))
      as (_ & _ & _ & _ & _ & _).
    reflexivity.
Defined.

(** X3.  The DNS search list of the spec is [nil] exactly when the declared
    list has no element (it is null, unknown or empty); a declared list
    whose elements are all null gives a list that is present and empty. *)
Theorem dns_search_nil_iff_no_elements (net : NetworkingModel.t) :
  (v1alpha4.Networking.DNSSearch (buildNetworkingConfig net) = None
   <-> types.List_Elements (NetworkingModel.DNSSearch net) = [])
  /\ (forall l,
       v1alpha4.Networking.DNSSearch (buildNetworkingConfig net) = Some l ->
       l = collectStrings (types.List_Elements (NetworkingModel.DNSSearch net)))
  /\ (forall n,
       NetworkingModel.DNSSearch net
         = types.ListValue (replicate (S n) (types.VString types.StringNull)) ->
       v1alpha4.Networking.DNSSearch (buildNetworkingConfig net) = Some []).
Proof.
  cbn [buildNetworkingConfig v1alpha4.Networking.DNSSearch].
  destruct (NetworkingModel.DNSSearch net) as [| |elems] eqn:Hd;
    cbn [types.List_IsNull types.List_Elements negb andb length Nat.ltb Nat.leb].
  - repeat split; try discriminate.
  - repeat split; try discriminate.
  - destruct elems as [|e elems]; cbn [length Nat.ltb Nat.leb].
    + repeat split; try discriminate.
    + split; [split; discriminate|]. split; [by intros l [= <-]|].
      intros n [= -> ->]. f_equal. unfold collectStrings.
      change (omap appendString (replicate (S n) (types.VString types.StringNull)) = []).
      induction (S n) as [|m IH]; [reflexivity | exact IH].
Qed.

Lemma dns_search_nil_iff_no_elements_witness :
  v1alpha4.Networking.DNSSearch
    (buildNetworkingConfig
       (networkingWithDNS (types.ListValue [types.VString types.StringNull])))
  = Some [].
Proof.
  apply (proj2 (proj2 (dns_search_nil_iff_no_elements
           (networkingWithDNS (types.ListValue [types.VString types.StringNull]))))
           0%nat).
  reflexivity.
Defined.

Lemma size_pos_lookup {A : Type} (m : gmap string A) (k : string) (a : A) :
  m !! k = Some a -> (0 <? size m)%nat = true.
Proof.
  intros H. apply Nat.ltb_lt.
  destruct (decide (size m = 0%nat)) as [H0|H0]; [|lia].
  apply map_size_empty_iff in H0. subst m. by rewrite lookup_empty in H.
Qed.

Lemma size_zero_lookup {A : Type} (m : gmap string A) (k : string) :
  (0 <? size m)%nat = false -> m !! k = None.
Proof.
  intros H. apply Nat.ltb_ge in H.
  assert (size m = 0%nat) as H0 by lia.
  apply map_size_empty_iff in H0. subst m. apply lookup_empty.
Qed.

(** X4.  A feature gate is in the spec, with value [b], exactly when the
    declared map holds for its name a bool that is not null and whose value
    is [b]; a null entry is dropped, an unknown one counts as false. *)
Theorem feature_gates_lookup
    (data : ClusterResourceModel.t) (elems : gmap string types.Value)
    (k : string) (b : bool) :
  ClusterResourceModel.FeatureGates data = types.MapValue elems ->
  v1alpha4.Cluster.FeatureGates (buildClusterConfig data) !! k = Some b
  <-> exists v, elems !! k = Some (types.VBool v)
                /\ types.Bool_IsNull v = false
                /\ types.ValueBool v = b.
Proof.
  intros Hm. cbn [buildClusterConfig v1alpha4.Cluster.FeatureGates].
  unfold buildFeatureGates. rewrite Hm.
  cbn [types.Map_IsNull types.Map_Elements negb andb].
  destruct (0 <? size elems)%nat eqn:Hsize.
  - rewrite lookup_omap. destruct (elems !! k) as [[s|v|i]|]; simpl.
    + split; [discriminate | by intros (v & [=] & _)].
    + destruct v as [| |b']; simpl.
      * split; [discriminate | intros (v & [= <-] & Hn & _); discriminate Hn].
      * split; [intros [= <-]; by exists types.BoolUnknown|].
        by intros (v & [= <-] & _ & <-).
      * split; [intros [= <-]; by exists (types.BoolValue b')|].
        by intros (v & [= <-] & _ & <-).
    + split; [discriminate | by intros (v & [=] & _)].
    + split; [discriminate | by intros (v & [=] & _)].
  - rewrite lookup_empty. split; [discriminate|].
    intros (v & Hv & _). by rewrite (size_zero_lookup elems k Hsize) in Hv.
Qed.

Lemma feature_gates_lookup_witness :
  v1alpha4.Cluster.FeatureGates
    (buildClusterConfig
       (planWith types.StringNull 300 (types.MapValue gatesAndConfig)
          types.MapNull types.ListNull)) !! "A" = Some true.
Proof.
  apply (feature_gates_lookup
           (planWith types.StringNull 300 (types.MapValue gatesAndConfig)
              types.MapNull types.ListNull) gatesAndConfig "A" true eq_refl).
  exists (types.BoolValue true). repeat split.
Defined.

(** X5.  The two string maps treat a null value differently: a node label
    whose value is null becomes a label with the empty string, while a
    runtime-config entry whose value is null is left out; any other string
    value is copied under its key by both. *)
Theorem labels_keep_null_runtime_config_drops_it
    (elems : gmap string types.Value) (k : string) (v : types.String) :
  elems !! k = Some (types.VString v) ->
  (forall node : NodeModel.t,
     NodeModel.Labels node = types.MapValue elems ->
     v1alpha4.Node.Labels (buildNodeConfig node) !! k
     = Some (types.ValueString v))
  /\ (forall data : ClusterResourceModel.t,
       ClusterResourceModel.RuntimeConfig data = types.MapValue elems ->
       v1alpha4.Cluster.RuntimeConfig (buildClusterConfig data) !! k
       = if types.String_IsNull v then None else Some (types.ValueString v)).
Proof.
  intros Hk. split.
  - intros node Hm. cbn [buildNodeConfig v1alpha4.Node.Labels].
    unfold buildLabels. rewrite Hm.
    cbn [types.Map_IsNull types.Map_Elements negb].
    rewrite lookup_omap, Hk. reflexivity.
  - intros data Hm. cbn [buildClusterConfig v1alpha4.Cluster.RuntimeConfig].
    unfold buildRuntimeConfig. rewrite Hm.
    cbn [types.Map_IsNull types.Map_Elements negb andb].
    rewrite (size_pos_lookup elems k _ Hk), lookup_omap, Hk.
    by destruct v.
Qed.

Lemma labels_keep_null_runtime_config_drops_it_witness :
  v1alpha4.Node.Labels
    (buildNodeConfig (nodeWithLabels (types.MapValue gatesAndConfig)))
    !! "api/alpha" = Some ""
  /\ v1alpha4.Cluster.RuntimeConfig
       (buildClusterConfig
          (planWith types.StringNull 300 types.MapNull
             (types.MapValue gatesAndConfig) types.ListNull))
       !! "api/alpha" = None.
Proof.
  destruct (labels_keep_null_runtime_config_drops_it gatesAndConfig "api/alpha"
              types.StringNull eq_refl) as [Hl Hr].
  split.
  - apply (Hl (nodeWithLabels (types.MapValue gatesAndConfig)) eq_refl).
  - apply (Hr (planWith types.StringNull 300 types.MapNull
                 (types.MapValue gatesAndConfig) types.ListNull) eq_refl).
Defined.

(** X6.  The backend's create is called with the synthesized config, the
    control-plane wait, and usage and salutation switched off, in that
    order; the node-image option is added, last, exactly when the model's
    node image is a known string that is not empty. *)
Theorem create_options_node_image (data : ClusterResourceModel.t) :
  firstn 4 (createOptions data)
  = [ CreateWithV1Alpha4Config (buildClusterConfig data);
      CreateWithWaitForReady
        (seconds (types.ValueInt64 (ClusterResourceModel.WaitForReady data)));
      CreateWithDisplayUsage false;
      CreateWithDisplaySalutation false ]
  /\ (forall image,
       In (CreateWithNodeImage image) (createOptions data)
       <-> ClusterResourceModel.NodeImage data = types.StringValue image
           /\ image <> "")
  /\ (length (createOptions data) <= 5)%nat.
Proof.
  unfold createOptions. split; [reflexivity|].
  destruct (ClusterResourceModel.NodeImage data) as [| |s]; simpl.
  - split; [|lia]. intros image. split.
    + intros [H|[H|[H|[H|[]]]]]; discriminate H.
    + by intros [H _].
  - split; [|lia]. intros image. split.
    + intros [H|[H|[H|[H|[]]]]]; discriminate H.
    + by intros [H _].
  - destruct (String.eqb_spec s "") as [->|Hne]; simpl.
    + split; [|lia]. intros image. split.
      * intros [H|[H|[H|[H|[]]]]]; discriminate H.
      * intros [[= <-] H]. by destruct H.
    + split; [|lia]. intros image. split.
      * intros [H|[H|[H|[H|[H|[]]]]]]; try discriminate H.
        injection H as <-. by split.
      * intros [[= <-] _]. tauto.
Qed.

Lemma create_options_node_image_witness :
  In (CreateWithNodeImage "kindest/node:v1.31.2")
    (createOptions
       (planWith (types.StringValue "kindest/node:v1.31.2") 300 types.MapNull
          types.MapNull types.ListNull)).
Proof.
  apply (proj1 (proj2 (create_options_node_image
           (planWith (types.StringValue "kindest/node:v1.31.2") 300 types.MapNull
              types.MapNull types.ListNull)))).
  split; [reflexivity | discriminate].
Defined.

(** X7.  The wait in seconds becomes a duration without loss exactly when
    its magnitude is at most 9223372036 seconds; beyond that the
    multiplication by [time.Second] wraps around in 64 bits. *)
Theorem wait_for_ready_seconds (v : Z) :
  (seconds v = v * Second <-> - 9223372036 <= v <= 9223372036)
  /\ minDuration <= seconds v <= maxDuration
  /\ (seconds v - v * Second) `mod` 2 ^ 64 = 0.
Proof.
  unfold seconds, int64, minDuration, maxDuration, Second.
  pose proof (Z.mod_pos_bound (v * 1000000000 + 2 ^ 63) (2 ^ 64) ltac:(lia)) as Hb.
  change (2 ^ 63) with 9223372036854775808 in *.
  change (2 ^ 64) with 18446744073709551616 in *.
  split; [split|split].
  - intros H. lia.
  - intros H. rewrite Z.mod_small by lia. lia.
  - lia.
  - replace ((v * 1000000000 + 9223372036854775808) `mod` 18446744073709551616
             - 9223372036854775808 - v * 1000000000)
      with ((v * 1000000000 + 9223372036854775808) `mod` 18446744073709551616
            - (v * 1000000000 + 9223372036854775808)) by lia.
    rewrite Zminus_mod, Z.mod_mod, Z.sub_diag by lia. reflexivity.
Qed.

Lemma wait_for_ready_seconds_witness : seconds 300 = 300 * Second.
Proof. apply (proj1 (wait_for_ready_seconds 300)). lia. Defined.

(** ** The readiness gate: when each outcome is reached *)

Section GateRuns.

Variable env : GateEnv.
Variable timeout : Z.

Local Abbreviation chosen := (selectCase env timeout).
Local Abbreviation loop := (pollLoop env timeout).
Local Abbreviation deadline := (timeoutAt timeout).
Local Abbreviation cancelled := (cancelAt env).

(** A channel that is ready strictly before the two others is the one
    [select] takes. *)
Lemma select_tick_first (k : nat) :
  tickAt k < deadline ->
  (forall c, cancelled = Some c -> tickAt k < c) ->
  chosen k = TickerC.
Proof.
  intros Ht Hc. destruct (chosen k) eqn:Hs; [| |reflexivity]; exfalso.
  - apply select_cancel in Hs as (c & Hcc & _ & Hck). specialize (Hc c Hcc). lia.
  - apply select_timeout in Hs as [Hs _]. lia.
Qed.


(** Ticks that are taken and whose answer makes the loop go on are passed,
    one iteration each. *)
Lemma pollLoop_skip (k : nat) :
  (forall j, (j < k)%nat ->
     chosen j = TickerC /\ tickBody (nodesList env j) = Continue) ->
  forall fuel, loop (fuel + k) 0 = loop fuel k.
Proof.
  induction k as [|k IH]; intros Hk fuel.
  - by rewrite Nat.add_0_r.
  - replace (fuel + S k)%nat with (S fuel + k)%nat by lia.
    rewrite IH by (intros j Hj; apply Hk; lia).
    destruct (Hk k ltac:(lia)) as [Hs Hb]. simpl. by rewrite Hs, Hb.
Qed.

Lemma pollFuel_covers (k : nat) :
  tickAt k <= deadline -> exists fuel, pollFuel timeout = (S (S fuel) + k)%nat.
Proof.
  intros Hk. unfold pollFuel.
  assert (Z.of_nat k + 1 <= deadline / tickerPeriod) as Hq.
  { apply Z.div_le_lower_bound; [apply tickerPeriod_pos|exact Hk]. }
  exists (Z.to_nat (deadline / tickerPeriod) - S k)%nat. lia.
Qed.

End GateRuns.

(** X8.  The gate succeeds at the first all-ready answer that comes in time:
    if the answers to the polls before the k-th make the loop go on (an
    error, no node, some node not ready), the k-th answer has at least one
    node and all nodes ready, and the k-th tick falls strictly before the
    timeout and before any cancellation, then the gate returns [nil] after
    exactly k+1 polls. *)
Theorem gate_succeeds_at_first_ready_answer
    (env : GateEnv) (timeout : Z) (kubeconfigContent : string) (k : nat) :
  setupError env kubeconfigContent = None ->
  (forall j, (j < k)%nat -> tickBody (nodesList env j) = Continue) ->
  tickBody (nodesList env k) = ReturnNil ->
  tickAt k < timeoutAt timeout ->
  (forall c, cancelAt env = Some c -> tickAt k < c) ->
  waitForAllNodesReady env timeout kubeconfigContent = Some (None, S k).
Proof.
  intros Hsetup Hbefore Hready Htime Hcancel.
  unfold waitForAllNodesReady. rewrite Hsetup.
  destruct (pollFuel_covers timeout k ltac:(lia)) as [fuel ->].
  rewrite pollLoop_skip.
  - simpl. rewrite (select_tick_first env timeout k Htime Hcancel). by rewrite Hready.
  - intros j Hj. split; [|by apply Hbefore].
    pose proof (tickAt_mono j k ltac:(lia)) as Hjk.
    apply select_tick_first; [lia|].
    intros c Hc. specialize (Hcancel c Hc). lia.
Qed.

Lemma gate_succeeds_at_first_ready_answer_witness :
  waitForAllNodesReady (gateEnv (Some (60 * Second)) warmingUp) (300 * Second)
    "apiVersion: v1"
  = Some (None, 4%nat).
Proof.
  apply (gate_succeeds_at_first_ready_answer
           (gateEnv (Some (60 * Second)) warmingUp) (300 * Second)
           "apiVersion: v1" 3).
  - reflexivity.
  - intros j Hj. destruct j as [|[|[|j]]]; [reflexivity..|lia].
  - reflexivity.
  - unfold tickAt, timeoutAt, tickerPeriod, Second. lia.
  - intros c [= <-]. unfold tickAt, tickerPeriod, Second. lia.
Defined.

(** X9.  The gate times out when readiness never comes: if no answer to a
    poll made up to the timeout has all nodes ready and the context is not
    cancelled by then, the gate returns the timeout error, having polled at
    every tick before the timeout; the timeout fires between the last poll
    and the next tick. *)
Theorem gate_times_out_when_never_ready
    (env : GateEnv) (timeout : Z) (kubeconfigContent : string) :
  setupError env kubeconfigContent = None ->
  (forall j, tickAt j <= timeoutAt timeout ->
     tickBody (nodesList env j) = Continue) ->
  (forall c, cancelAt env = Some c -> timeoutAt timeout < c) ->
  exists polls : nat,
    waitForAllNodesReady env timeout kubeconfigContent
    = Some (Some (timeoutError timeout), polls)
    /\ tickerPeriod * Z.of_nat polls <= timeoutAt timeout
    /\ timeoutAt timeout <= tickerPeriod * (Z.of_nat polls + 1)
    /\ (timeoutAt timeout `mod` tickerPeriod <> 0 ->
        Z.of_nat polls = timeoutAt timeout / tickerPeriod).
Proof.
  intros Hsetup Hnever Hcancel.
  destruct (waitForAllNodesReady_returns env timeout kubeconfigContent)
    as [[r polls] Hres].
  exists polls. rewrite Hres. unfold waitForAllNodesReady in Hres.
  rewrite Hsetup in Hres. apply pollLoop_inv in Hres as (_ & Hticks & Hr).
  destruct r as [e|].
  - destruct Hr as [[-> Hs]|[-> Hs]].
    + exfalso. apply select_cancel in Hs as (c & Hc & Hct & _).
      specialize (Hcancel c Hc). lia.
    + apply select_timeout in Hs as [Hs _].
      assert (tickerPeriod * Z.of_nat polls <= timeoutAt timeout) as Hlow.
      { destruct polls as [|p].
        - unfold timeoutAt, tickerPeriod, Second. lia.
        - pose proof (proj1 (select_tick env timeout p (Hticks p ltac:(lia)))) as Hp.
          unfold tickAt in Hp. lia. }
      unfold tickAt in Hs.
      split; [reflexivity|]. split; [exact Hlow|]. split; [exact Hs|].
      intros Hmod. clear - Hmod Hs Hlow.
      generalize dependent (timeoutAt timeout). intros T.
      change tickerPeriod with 5000000000. intros Hs Hlow Hmod.
      Z.to_euclidean_division_equations. lia.
  - exfalso. destruct Hr as (p & -> & _ & Hret).
    pose proof (proj1 (select_tick env timeout p (Hticks p ltac:(lia)))) as Hp.
    rewrite (Hnever p Hp) in Hret. discriminate Hret.
Qed.

Lemma gate_times_out_when_never_ready_witness :
  exists polls : nat,
    waitForAllNodesReady (gateEnv None neverReady) (12 * Second) "apiVersion: v1"
    = Some (Some (timeoutError (12 * Second)), polls)
    /\ Z.of_nat polls = 2.
Proof.
  destruct (gate_times_out_when_never_ready (gateEnv None neverReady)
              (12 * Second) "apiVersion: v1" eq_refl)
    as (polls & Hres & _ & _ & Hpolls).
  - intros j _. reflexivity.
  - intros c Hc. discriminate Hc.
  - exists polls. split; [exact Hres|].
    rewrite Hpolls; [reflexivity|]. vm_compute. discriminate.
Defined.

(** X10.  A cancellation is propagated within one tick: if the context is
    cancelled strictly before the timeout and no answer to a poll made up to
    the cancellation has all nodes ready, the gate returns the context's
    error, and it has polled only at the ticks up to the cancellation.  A
    context already cancelled on entry gives the error without any poll. *)
Theorem gate_propagates_cancellation
    (env : GateEnv) (timeout : Z) (kubeconfigContent : string) (c : Z) :
  setupError env kubeconfigContent = None ->
  cancelAt env = Some c ->
  c < timeoutAt timeout ->
  (forall j, tickAt j <= c -> tickBody (nodesList env j) = Continue) ->
  exists polls : nat,
    waitForAllNodesReady env timeout kubeconfigContent
    = Some (Some (errorString (ctxErr env)), polls)
    /\ tickerPeriod * Z.of_nat polls <= c
    /\ c <= tickerPeriod * (Z.of_nat polls + 1)
    /\ (c < tickerPeriod -> polls = 0%nat).
Proof.
  intros Hsetup Hc Hct Hnever.
  assert (0 <= c) as Hc0.
  { unfold cancelAt in Hc. destruct (ctxDoneAt env); [|discriminate Hc].
    injection Hc as <-. lia. }
  destruct (waitForAllNodesReady_returns env timeout kubeconfigContent)
    as [[r polls] Hres].
  exists polls. rewrite Hres. unfold waitForAllNodesReady in Hres.
  rewrite Hsetup in Hres. apply pollLoop_inv in Hres as (_ & Hticks & Hr).
  destruct r as [e|].
  - destruct Hr as [[-> Hs]|[-> Hs]].
    + apply select_cancel in Hs as (c' & Hc' & _ & Hck).
      rewrite Hc in Hc'. injection Hc' as <-.
      assert (tickerPeriod * Z.of_nat polls <= c) as Hlow.
      { destruct polls as [|p].
        - unfold tickerPeriod, Second. lia.
        - pose proof (proj2 (select_tick env timeout p (Hticks p ltac:(lia))) c Hc)
            as Hp.
          unfold tickAt in Hp. lia. }
      unfold tickAt in Hck.
      split; [reflexivity|]. split; [exact Hlow|]. split; [exact Hck|].
      intros Hsmall. unfold tickerPeriod, Second in *. lia.
    + exfalso. apply select_timeout in Hs as [_ Hs]. specialize (Hs c Hc). lia.
  - exfalso. destruct Hr as (p & -> & _ & Hret).
    pose proof (proj2 (select_tick env timeout p (Hticks p ltac:(lia))) c Hc) as Hp.
    rewrite (Hnever p Hp) in Hret. discriminate Hret.
Qed.

Lemma gate_propagates_cancellation_witness :
  waitForAllNodesReady (gateEnv (Some 0) neverReady) (300 * Second) "apiVersion: v1"
  = Some (Some (errorString "context canceled"), 0%nat).
Proof.
  destruct (gate_propagates_cancellation (gateEnv (Some 0) neverReady)
              (300 * Second) "apiVersion: v1" 0 eq_refl eq_refl)
    as (polls & Hres & _ & _ & Hpolls).
  - unfold timeoutAt, Second. lia.
  - intros j _. reflexivity.
  - rewrite Hres, Hpolls; [reflexivity|]. unfold tickerPeriod, Second. lia.
Defined.

(** ** Lock recovery: what it leaves alone *)

Lemma cleanupStaleLockFile_cases (filepath_Join : list string -> string) (w : World) :
  cleanupStaleLockFile filepath_Join w = w
  \/ exists homeDir,
       UserHomeDir w = Ok homeDir
       /\ (cleanupStaleLockFile filepath_Join w
             = logCall (CallRemove (lockFilePath filepath_Join homeDir)) w
           \/ (cleanupStaleLockFile filepath_Join w
                 = setFiles (delete (lockFilePath filepath_Join homeDir) (files w))
                     (logCall (CallRemove (lockFilePath filepath_Join homeDir)) w)
               /\ statErr w (lockFilePath filepath_Join homeDir) = None)).
Proof.
  unfold cleanupStaleLockFile.
  destruct (UserHomeDir w) as [homeDir|e] eqn:Hhome; [|by left].
  destruct (os_Stat w (lockFilePath filepath_Join homeDir)) as [modTime|e] eqn:Hstat;
    [|by left].
  destruct (60 * Second <? time_Since w modTime); [|by left].
  right. exists homeDir. split; [reflexivity|].
  unfold os_Remove. cbn [removeErr logCall files].
  destruct (removeErr w (lockFilePath filepath_Join homeDir)); [by left|].
  destruct (files w !! lockFilePath filepath_Join homeDir); [|by left].
  right. split; [reflexivity|].
  unfold os_Stat in Hstat.
  by destruct (statErr w (lockFilePath filepath_Join homeDir)).
Qed.

(** X11.  Lock recovery touches nothing but the lock file: every other path
    keeps its file, no file appears or changes, and the log grows by at most
    one removal, of the lock path. *)
Theorem cleanupStaleLockFile_only_the_lock
    (filepath_Join : list string -> string) (w : World) :
  (forall path,
     (forall homeDir, UserHomeDir w = Ok homeDir ->
        path <> lockFilePath filepath_Join homeDir) ->
     files (cleanupStaleLockFile filepath_Join w) !! path = files w !! path)
  /\ (forall path modTime,
       files (cleanupStaleLockFile filepath_Join w) !! path = Some modTime ->
       files w !! path = Some modTime)
  /\ (log (cleanupStaleLockFile filepath_Join w) = log w
      \/ exists homeDir,
           UserHomeDir w = Ok homeDir
           /\ log (cleanupStaleLockFile filepath_Join w)
              = log w ++ [CallRemove (lockFilePath filepath_Join homeDir)]).
Proof.
  destruct (cleanupStaleLockFile_cases filepath_Join w)
    as [->|(homeDir & Hhome & [->|[-> _]])].
  - repeat split; try tauto.
  - cbn [files logCall log]. repeat split; try tauto. right. by exists homeDir.
  - cbn [files setFiles logCall log]. split; [|split].
    + intros path Hpath. apply lookup_delete_ne. intros Heq.
      by apply (Hpath homeDir Hhome).
    + intros path modTime. rewrite lookup_delete_Some. tauto.
    + right. by exists homeDir.
Qed.

Lemma cleanupStaleLockFile_only_the_lock_witness :
  files (cleanupStaleLockFile joinSlash
           (sampleWorld None (Ok kubeconfigNoUsers) (gateEnv None alwaysReady)
              (<[ "/home/dev/.kube/config" := 0 ]> {[ sampleLock := 0 ]})
              (3600 * Second)))
    !! "/home/dev/.kube/config" = Some 0.
Proof.
  rewrite (proj1 (cleanupStaleLockFile_only_the_lock joinSlash
             (sampleWorld None (Ok kubeconfigNoUsers) (gateEnv None alwaysReady)
                (<[ "/home/dev/.kube/config" := 0 ]> {[ sampleLock := 0 ]})
                (3600 * Second)))).
  - reflexivity.
  - intros homeDir [= <-]. discriminate.
Defined.



(** ** Credential extraction: what [populateComputedValues] keeps *)

Section PopulateProperties.

Variable Duration_String : Z -> string.
Variable filepath_Join : list string -> string.
Variable yaml_Unmarshal : string -> Result (gmap string iface).

Local Abbreviation populate :=
  (populateComputedValues Duration_String filepath_Join yaml_Unmarshal).

Lemma populateComputedValues_world
    (data : ClusterResourceModel.t) (diags : diag.Diagnostics) (w : World) :
  snd (populate data diags w)
  = logCall (CallProviderKubeConfig
               (types.ValueString (ClusterResourceModel.Name data)) false) w.
Proof.
  unfold populateComputedValues. cbv zeta.
  cbn [providerKubeConfig UserHomeDir logCall].
  destruct (providerKubeConfig w _ false); [|reflexivity].
  destruct (UserHomeDir w); [|reflexivity].
  by destruct (yaml_Unmarshal a).
Qed.

Lemma populateComputedValues_model
    (data : ClusterResourceModel.t) (diags : diag.Diagnostics) (w : World) :
  exists kubeconfig kubeconfigPath clientCertificate clientKey ca endpoint,
    fst (fst (populate data diags w))
    = setComputed data
        (types.StringValue (types.ValueString (ClusterResourceModel.Name data)))
        kubeconfig kubeconfigPath clientCertificate clientKey ca endpoint.
Proof.
  unfold populateComputedValues. cbv zeta.
  cbn [providerKubeConfig UserHomeDir logCall].
  destruct (providerKubeConfig w _ false); [|cbn [fst]; eauto 10].
  destruct (UserHomeDir w); [|cbn [fst]; eauto 10].
  destruct (yaml_Unmarshal a); cbn [fst]; eauto 10.
Qed.

(** X13.  Whatever happens to the credential bundle, the extraction sets the
    identifier to the cluster name, asks the backend for the bundle exactly
    once, and leaves every configuration attribute as it was: the model
    synthesizes to the same spec and the same create options as before. *)
Theorem populateComputedValues_keeps_configuration
    (data : ClusterResourceModel.t) (diags : diag.Diagnostics) (w : World) :
  let '(data', _, w') := populate data diags w in
  ClusterResourceModel.ID data'
    = types.StringValue (types.ValueString (ClusterResourceModel.Name data))
  /\ ClusterResourceModel.Name data' = ClusterResourceModel.Name data
  /\ ClusterResourceModel.WaitForNodesReady data'
     = ClusterResourceModel.WaitForNodesReady data
  /\ buildClusterConfig data' = buildClusterConfig data
  /\ createOptions data' = createOptions data
  /\ log w'
     = log w ++ [CallProviderKubeConfig
                   (types.ValueString (ClusterResourceModel.Name data)) false].
Proof.
  pose proof (populateComputedValues_world data diags w) as Hw.
  destruct (populateComputedValues_model data diags w)
    as (k & p & c1 & c2 & c3 & c4 & Hd).
  destruct (populate data diags w) as [[data' diags'] w'].
  cbn [fst snd] in Hw, Hd. subst data' w'. repeat split.
Qed.

(** X14.  Starting without an error, the extraction ends without an error
    exactly when the backend hands over the bundle, the home directory is
    found and the bundle decodes; and then no computed field is left null:
    identifier, bundle and path are known strings and the four derived
    fields are not null. *)
Theorem populateComputedValues_success_iff
    (data : ClusterResourceModel.t) (diags : diag.Diagnostics) (w : World) :
  diag.HasError diags = false ->
  let '(data', diags', _) := populate data diags w in
  (diag.HasError diags' = false
   <-> exists kubeconfig homeDir doc,
         providerKubeConfig w (types.ValueString (ClusterResourceModel.Name data))
           false = Ok kubeconfig
         /\ UserHomeDir w = Ok homeDir
         /\ yaml_Unmarshal kubeconfig = Ok doc)
  /\ (diag.HasError diags' = false ->
      diags' = diags
      /\ (exists kubeconfig homeDir,
            ClusterResourceModel.Kubeconfig data' = types.StringValue kubeconfig
            /\ ClusterResourceModel.KubeconfigPath data'
               = types.StringValue
                   (filepath_Join
                      [homeDir; ".kube"; "kind";
                       "kind-" +:+ types.ValueString (ClusterResourceModel.Name data)]))
      /\ types.String_IsNull (ClusterResourceModel.Endpoint data') = false
      /\ types.String_IsNull (ClusterResourceModel.ClusterCaCertificate data') = false
      /\ types.String_IsNull (ClusterResourceModel.ClientCertificate data') = false
      /\ types.String_IsNull (ClusterResourceModel.ClientKey data') = false).
Proof.
  intros Hno. unfold populateComputedValues. cbv zeta.
  cbn [providerKubeConfig UserHomeDir logCall].
  assert (Hnn : forall v, types.String_IsNull (emptyIfNull v) = false)
    by (by intros [| |s]).
  destruct (providerKubeConfig w _ false) as [kubeconfig|e] eqn:Hkc.
  - destruct (UserHomeDir w) as [homeDir|e] eqn:Hhome.
    + destruct (yaml_Unmarshal kubeconfig) as [doc|e] eqn:Hyaml.
      * split; [split; [intros _; by exists kubeconfig, homeDir, doc | done]|].
        intros _. cbn [setComputed ClusterResourceModel.Kubeconfig
                       ClusterResourceModel.KubeconfigPath
                       ClusterResourceModel.Endpoint
                       ClusterResourceModel.ClusterCaCertificate
                       ClusterResourceModel.ClientCertificate
                       ClusterResourceModel.ClientKey].
        rewrite !Hnn. repeat split. by exists kubeconfig, homeDir.
      * rewrite HasError_AddError by exact Hno.
        split; [split; [discriminate|] | discriminate].
        intros (k & h & d & [= <-] & _ & Hd). rewrite Hyaml in Hd. discriminate Hd.
    + rewrite HasError_AddError by exact Hno.
      split; [split; [discriminate|] | discriminate].
      intros (k & h & d & _ & [=] & _).
  - rewrite HasError_AddError by exact Hno.
    split; [split; [discriminate|] | discriminate].
    intros (k & h & d & [=] & _).
Qed.

Lemma firstEntry_head (doc : gmap string iface) (section key : string)
    (entry info : gmap string iface) (rest : list iface) :
  doc !! section = Some (ISlice (IMap entry :: rest)) ->
  entry !! key = Some (IMap info) ->
  firstEntry doc section key = Some info.
Proof.
  intros Hs He. unfold firstEntry, mapIndex. rewrite Hs. simpl. by rewrite He.
Qed.

Lemma extractString_present (info : gmap string iface) (key value : string)
    (field : types.String) :
  info !! key = Some (IString value) ->
  emptyIfNull (extractString (Some info) key field) = types.StringValue value.
Proof.
  intros Hk. unfold extractString, mapIndex. simpl. by rewrite Hk.
Qed.

(** X15.  From a bundle whose first cluster entry and first user entry carry
    the four values as strings, the extraction stores exactly these values,
    whatever the model held before and whatever further entries the bundle
    lists. *)
Theorem populateComputedValues_reads_first_entries
    (data : ClusterResourceModel.t) (diags : diag.Diagnostics) (w : World)
    (kubeconfig homeDir : string) (doc centry cinfo uentry uinfo : gmap string iface)
    (crest urest : list iface) (server ca cert key : string) :
  providerKubeConfig w (types.ValueString (ClusterResourceModel.Name data)) false
    = Ok kubeconfig ->
  UserHomeDir w = Ok homeDir ->
  yaml_Unmarshal kubeconfig = Ok doc ->
  doc !! "clusters" = Some (ISlice (IMap centry :: crest)) ->
  centry !! "cluster" = Some (IMap cinfo) ->
  cinfo !! "server" = Some (IString server) ->
  cinfo !! "certificate-authority-data" = Some (IString ca) ->
  doc !! "users" = Some (ISlice (IMap uentry :: urest)) ->
  uentry !! "user" = Some (IMap uinfo) ->
  uinfo !! "client-certificate-data" = Some (IString cert) ->
  uinfo !! "client-key-data" = Some (IString key) ->
  let '(data', diags', _) := populate data diags w in
  diags' = diags
  /\ ClusterResourceModel.Endpoint data' = types.StringValue server
  /\ ClusterResourceModel.ClusterCaCertificate data' = types.StringValue ca
  /\ ClusterResourceModel.ClientCertificate data' = types.StringValue cert
  /\ ClusterResourceModel.ClientKey data' = types.StringValue key.
Proof.
  intros Hkc Hhome Hyaml Hc Hce Hs Hca Hu Hue Hcert Hkey.
  unfold populateComputedValues. cbv zeta.
  cbn [providerKubeConfig UserHomeDir logCall].
  rewrite Hkc, Hhome, Hyaml.
  rewrite (firstEntry_head doc "clusters" "cluster" centry cinfo crest Hc Hce).
  rewrite (firstEntry_head doc "users" "user" uentry uinfo urest Hu Hue).
  cbn [setComputed ClusterResourceModel.Endpoint
       ClusterResourceModel.ClusterCaCertificate
       ClusterResourceModel.ClientCertificate ClusterResourceModel.ClientKey].
  rewrite (extractString_present _ _ _ _ Hs), (extractString_present _ _ _ _ Hca),
    (extractString_present _ _ _ _ Hcert), (extractString_present _ _ _ _ Hkey).
  by repeat split.
Qed.

End PopulateProperties.

Lemma populateComputedValues_success_iff_witness :
  types.String_IsNull
    (ClusterResourceModel.ClientKey
       (fst (fst (populateComputedValues secondsString joinSlash decodeSample
                    (ImportState "dev") []
                    (sampleWorld None (Ok kubeconfigNoUsers)
                       (gateEnv None alwaysReady) ∅ 0)))))
  = false.
Proof.
  pose proof (populateComputedValues_success_iff secondsString joinSlash
                decodeSample (ImportState "dev") []
                (sampleWorld None (Ok kubeconfigNoUsers)
                   (gateEnv None alwaysReady) ∅ 0) eq_refl) as H.
  destruct (populateComputedValues secondsString joinSlash decodeSample
              (ImportState "dev") []
              (sampleWorld None (Ok kubeconfigNoUsers)
                 (gateEnv None alwaysReady) ∅ 0)) as [[data' diags'] w'] eqn:Hp.
  destruct H as [Hiff Hok]. cbn [fst].
  apply Hok. apply Hiff. by exists kubeconfigNoUsers, "/home/dev", docNoUsers.
Defined.

Lemma populateComputedValues_reads_first_entries_witness :
  ClusterResourceModel.ClientKey
    (fst (fst (populateComputedValues secondsString joinSlash decodeFull
                 staleModel [] (worldFull (gateEnv None alwaysReady) ∅ 0))))
  = types.StringValue "S0VZ".
Proof.
  pose proof (populateComputedValues_reads_first_entries secondsString joinSlash
                decodeFull staleModel []
                (worldFull (gateEnv None alwaysReady) ∅ 0)
                kubeconfigFull "/home/dev" docFull
                _ _ _ _ _ _ "https://127.0.0.1:6443" "Q0E=" "Q1JU" "S0VZ"
                eq_refl eq_refl eq_refl eq_refl eq_refl eq_refl eq_refl
                eq_refl eq_refl eq_refl eq_refl) as H.
  destruct (populateComputedValues secondsString joinSlash decodeFull
              staleModel [] (worldFull (gateEnv None alwaysReady) ∅ 0))
    as [[data' diags'] w'].
  cbn [fst]. apply H.
Defined.

(** ** Create and Delete: state, errors and backend calls *)

Lemma guard_true (v : types.Bool) :
  negb (types.Bool_IsNull v) && types.ValueBool v = true
  <-> v = types.BoolValue true.
Proof. destruct v as [| |[|]]; simpl; split; congruence. Qed.

Section CreateRuns.

Variable Duration_String : Z -> string.
Variable filepath_Join : list string -> string.
Variable yaml_Unmarshal : string -> Result (gmap string iface).

Local Abbreviation create :=
  (Create Duration_String filepath_Join yaml_Unmarshal).
Local Abbreviation populate :=
  (populateComputedValues Duration_String filepath_Join yaml_Unmarshal).

(** X16.  [Create] stores state exactly when it reports no error: a response
    with an error carries no state, a response without one carries the
    model; and the stored model has the cluster name as identifier and the
    configuration of the plan. *)
Theorem create_stores_state_iff_no_error
    (req : CreateRequest) (w : World) (resp : CreateResponse) (w' : World) :
  create req w = Some (resp, w') ->
  (State resp = None <-> diag.HasError (Diagnostics resp) = true)
  /\ (forall data,
        State resp = Some data ->
        ClusterResourceModel.ID data
          = types.StringValue
              (types.ValueString (ClusterResourceModel.Name (PlanData req)))
        /\ buildClusterConfig data = buildClusterConfig (PlanData req)).
Proof.
  unfold Create. cbv zeta.
  destruct (diag.HasError (diag.Append [] (PlanGetDiags req))) eqn:Hplan.
  { intros [= <- <-]. cbn [State Diagnostics]. by split; [split|]. }
  match goal with |- context [providerCreate ?w0 ?n ?o] =>
    destruct (providerCreate w0 n o) end.
  { intros [= <- <-]. cbn [State Diagnostics].
    rewrite HasError_AddError by exact Hplan. by split; [split|]. }
  match goal with |- context [populateComputedValues ?a ?b ?c ?d ?e ?f] =>
    destruct (populateComputedValues_model a b c d e f)
      as (k & p & c1 & c2 & c3 & c4 & Hd);
    destruct (populateComputedValues a b c d e f) as [[data1 diags1] w1]
  end.
  cbn [fst] in Hd.
  assert (Hmodel : ClusterResourceModel.ID data1
            = types.StringValue
                (types.ValueString (ClusterResourceModel.Name (PlanData req)))
          /\ buildClusterConfig data1 = buildClusterConfig (PlanData req))
    by (by rewrite Hd).
  destruct (diag.HasError diags1) eqn:Hpop.
  { intros [= <- <-]. cbn [State Diagnostics]. by split; [split|]. }
  match goal with |- context [if ?b then _ else _] => destruct b end.
  - match goal with |- context [waitForAllNodesReady ?g ?t ?kc] =>
      destruct (waitForAllNodesReady g t kc) as [[[e|] polls]|] end;
      [| |discriminate].
    + intros [= <- <-]. cbn [State Diagnostics].
      rewrite HasError_AddError by exact Hpop. by split; [split|].
    + intros [= <- <-]. cbn [State Diagnostics]. rewrite Hpop.
      split; [split; discriminate|]. by intros data [= <-].
  - intros [= <- <-]. cbn [State Diagnostics]. rewrite Hpop.
    split; [split; discriminate|]. by intros data [= <-].
Qed.


End CreateRuns.


Section CreatePaths.

Variable Duration_String : Z -> string.
Variable filepath_Join : list string -> string.
Variable yaml_Unmarshal : string -> Result (gmap string iface).

Local Abbreviation create :=
  (Create Duration_String filepath_Join yaml_Unmarshal).

Lemma populateComputedValues_extracted
    (data : ClusterResourceModel.t) (diags : diag.Diagnostics) (w : World)
    (kubeconfig homeDir : string) (doc : gmap string iface) :
  providerKubeConfig w (types.ValueString (ClusterResourceModel.Name data)) false
    = Ok kubeconfig ->
  UserHomeDir w = Ok homeDir ->
  yaml_Unmarshal kubeconfig = Ok doc ->
  populateComputedValues Duration_String filepath_Join yaml_Unmarshal data diags w
  = (extracted filepath_Join data kubeconfig homeDir doc, diags,
     logCall (CallProviderKubeConfig
                (types.ValueString (ClusterResourceModel.Name data)) false) w).
Proof.
  intros Hkc Hhome Hyaml. unfold populateComputedValues. cbv zeta.
  cbn [providerKubeConfig UserHomeDir logCall]. by rewrite Hkc, Hhome, Hyaml.
Qed.

(** [Create] after a successful backend create and extraction. *)
Lemma Create_extracted (req : CreateRequest) (w : World)
    (kubeconfig homeDir : string) (doc : gmap string iface) :
  let data := PlanData req in
  let name := types.ValueString (ClusterResourceModel.Name data) in
  let diags := diag.Append [] (PlanGetDiags req) in
  let w1 := logCall (CallProviderKubeConfig name false)
              (logCall (CallProviderCreate name (createOptions data))
                 (cleanupStaleLockFile filepath_Join w)) in
  diag.HasError diags = false ->
  providerCreate w name (createOptions data) = None ->
  providerKubeConfig w name false = Ok kubeconfig ->
  UserHomeDir w = Ok homeDir ->
  yaml_Unmarshal kubeconfig = Ok doc ->
  create req w
  = if negb (types.Bool_IsNull (ClusterResourceModel.WaitForNodesReady data))
       && types.ValueBool (ClusterResourceModel.WaitForNodesReady data)
    then
      match waitForAllNodesReady (gate w)
              (seconds (types.ValueInt64 (ClusterResourceModel.WaitForReady data)))
              kubeconfig with
      | None => None
      | Some (Some err, polls) =>
          Some (BuildCreateResponse
                  (diag.AddError diags "Failed waiting for nodes to be ready"
                     (Error Duration_String err)) None,
                logPolls polls w1)
      | Some (None, polls) =>
          Some (BuildCreateResponse diags
                  (Some (extracted filepath_Join data kubeconfig homeDir doc)),
                logPolls polls w1)
      end
    else Some (BuildCreateResponse diags
                 (Some (extracted filepath_Join data kubeconfig homeDir doc)), w1).
Proof.
  intros data name diags w1 Hplan Hcreate Hkc Hhome Hyaml.
  destruct (cleanupStaleLockFile_frame filepath_Join w)
    as (Hhd & Hpc & Hpk & Hg & _).
  unfold Create. cbv zeta. fold data. fold name. fold diags. rewrite Hplan.
  cbn [providerCreate logCall]. rewrite Hpc, Hcreate.
  erewrite populateComputedValues_extracted;
    [| cbn [providerKubeConfig logCall]; fold name; rewrite Hpk; exact Hkc
     | cbn [UserHomeDir logCall]; rewrite Hhd; exact Hhome
     | exact Hyaml].
  fold name. rewrite Hplan.
  change (ClusterResourceModel.WaitForNodesReady
            (extracted filepath_Join data kubeconfig homeDir doc))
    with (ClusterResourceModel.WaitForNodesReady data).
  change (ClusterResourceModel.WaitForReady (extracted filepath_Join data kubeconfig homeDir doc))
    with (ClusterResourceModel.WaitForReady data).
  change (types.ValueString
            (ClusterResourceModel.Kubeconfig (extracted filepath_Join data kubeconfig homeDir doc)))
    with kubeconfig.
  rewrite !gate_logCall, Hg. reflexivity.
Qed.

Lemma cleanupStaleLockFile_removals (w : World) :
  exists removals,
    log (cleanupStaleLockFile filepath_Join w) = log w ++ removals
    /\ Forall isRemove removals.
Proof.
  destruct (cleanupStaleLockFile_frame filepath_Join w) as (_ & _ & _ & _ & H).
  exact H.
Qed.

(** X18.  [Create] succeeds when the backend creates the cluster, the bundle
    is extracted, and the gate is either switched off (the flag is anything
    but a known true) or returns success: the response has the plan's
    diagnostics and stores the model with the bundle and its path; with the
    gate off the status endpoint is not polled at all. *)
Theorem create_success (req : CreateRequest) (w : World)
    (kubeconfig homeDir : string) (doc : gmap string iface) (polls : nat) :
  let data := PlanData req in
  let name := types.ValueString (ClusterResourceModel.Name data) in
  diag.HasError (diag.Append [] (PlanGetDiags req)) = false ->
  providerCreate w name (createOptions data) = None ->
  providerKubeConfig w name false = Ok kubeconfig ->
  UserHomeDir w = Ok homeDir ->
  yaml_Unmarshal kubeconfig = Ok doc ->
  (ClusterResourceModel.WaitForNodesReady data <> types.BoolValue true
   /\ polls = 0%nat)
  \/ (ClusterResourceModel.WaitForNodesReady data = types.BoolValue true
      /\ waitForAllNodesReady (gate w)
           (seconds (types.ValueInt64 (ClusterResourceModel.WaitForReady data)))
           kubeconfig = Some (None, polls)) ->
  exists (resp : CreateResponse) (w' : World) (data' : ClusterResourceModel.t)
         (removals : list Call),
    create req w = Some (resp, w')
    /\ Diagnostics resp = diag.Append [] (PlanGetDiags req)
    /\ State resp = Some data'
    /\ ClusterResourceModel.Kubeconfig data' = types.StringValue kubeconfig
    /\ ClusterResourceModel.KubeconfigPath data'
       = types.StringValue
           (filepath_Join [homeDir; ".kube"; "kind"; "kind-" +:+ name])
    /\ log w'
       = log w ++ removals
         ++ CallProviderCreate name (createOptions data)
            :: CallProviderKubeConfig name false
            :: map CallNodesList (seq 0 polls)
    /\ Forall isRemove removals.
Proof.
  intros data name Hplan Hcreate Hkc Hhome Hyaml Hgate.
  destruct (cleanupStaleLockFile_removals w) as (removals & Hlog & Hrem).
  rewrite (Create_extracted req w kubeconfig homeDir doc Hplan Hcreate Hkc Hhome Hyaml).
  fold data. fold name.
  destruct Hgate as [[Hoff ->]|[Hon Hwait]].
  - destruct (negb (types.Bool_IsNull (ClusterResourceModel.WaitForNodesReady data))
              && types.ValueBool (ClusterResourceModel.WaitForNodesReady data))
      eqn:Hguard; [by apply guard_true in Hguard|].
    eexists _, _, _, removals. split; [reflexivity|].
    cbn [Diagnostics State]. repeat split; [|exact Hrem].
    rewrite !log_logCall, Hlog, <- !app_assoc. reflexivity.
  - rewrite (proj2 (guard_true _) Hon), Hwait.
    eexists _, _, _, removals. split; [reflexivity|].
    cbn [Diagnostics State]. repeat split; [|exact Hrem].
    rewrite logPolls_frame, !log_logCall, Hlog, <- !app_assoc. reflexivity.
Qed.


End CreatePaths.

Lemma create_stores_state_iff_no_error_witness :
  exists (resp : CreateResponse) (w' : World),
    Create secondsString joinSlash decodeSample sampleRequest worldNeverReady
    = Some (resp, w')
    /\ State resp = None.
Proof.
  destruct (Create secondsString joinSlash decodeSample sampleRequest worldNeverReady)
    as [[resp w']|] eqn:Hc; [|vm_compute in Hc; discriminate Hc].
  exists resp, w'. split; [reflexivity|].
  apply (create_stores_state_iff_no_error _ _ _ _ _ _ _ Hc).
  revert Hc. vm_compute. by intros [= <- <-].
Defined.


Lemma create_success_witness :
  exists (resp : CreateResponse) (w' : World) (data' : ClusterResourceModel.t),
    Create secondsString joinSlash decodeFull requestFull
      (worldFull (gateEnv None warmingUp) ∅ 0)
    = Some (resp, w')
    /\ State resp = Some data'
    /\ ClusterResourceModel.Kubeconfig data' = types.StringValue kubeconfigFull.
Proof.
  destruct (create_success secondsString joinSlash decodeFull requestFull
              (worldFull (gateEnv None warmingUp) ∅ 0)
              kubeconfigFull "/home/dev" docFull 4
              eq_refl eq_refl eq_refl eq_refl eq_refl)
    as (resp & w' & data' & removals & Hc & _ & Hs & Hk & _).
  - right. split; [reflexivity | vm_compute; reflexivity].
  - exists resp, w', data'. split; [exact Hc|]. split; [exact Hs | exact Hk].
Defined.


Section DeleteProperties.

Variable Duration_String : Z -> string.
Variable filepath_Join : list string -> string.



End DeleteProperties.


(** ** Read, Update and import *)

Lemma containsCluster_In (clusters : list string) (name : string) :
  containsCluster clusters name = true <-> In name clusters.
Proof.
  unfold containsCluster. rewrite existsb_exists. split.
  - intros (c & Hin & Heq). apply String.eqb_eq in Heq. by subst c.
  - intros Hin. exists name. split; [exact Hin | apply String.eqb_refl].
Qed.

Lemma emptyIfNull_extractString_again
    (info : option (gmap string iface)) (key : string) (field : types.String) :
  emptyIfNull (extractString info key (emptyIfNull (extractString info key field)))
  = emptyIfNull (extractString info key field).
Proof.
  unfold extractString.
  destruct (info ≫= (fun m => asStr (mapIndex m key))); [reflexivity|].
  by destruct field.
Qed.

Lemma extracted_again (filepath_Join : list string -> string)
    (data : ClusterResourceModel.t) (kubeconfig homeDir : string)
    (doc : gmap string iface) :
  extracted filepath_Join (extracted filepath_Join data kubeconfig homeDir doc)
    kubeconfig homeDir doc
  = extracted filepath_Join data kubeconfig homeDir doc.
Proof.
  unfold extracted, setComputed.
  cbn [ClusterResourceModel.Name ClusterResourceModel.NodeImage
       ClusterResourceModel.WaitForReady ClusterResourceModel.WaitForNodesReady
       ClusterResourceModel.Networking ClusterResourceModel.FeatureGates
       ClusterResourceModel.RuntimeConfig ClusterResourceModel.KubeadmConfigPatches
       ClusterResourceModel.KubeadmConfigPatchesJSON6902
       ClusterResourceModel.ContainerdConfigPatches
       ClusterResourceModel.ContainerdConfigPatchesJSON6902
       ClusterResourceModel.ClientCertificate ClusterResourceModel.ClientKey
       ClusterResourceModel.ClusterCaCertificate ClusterResourceModel.Endpoint
       ClusterResourceModel.Nodes].
  by rewrite !emptyIfNull_extractString_again.
Qed.

Section ReadProperties.

Variable Duration_String : Z -> string.
Variable filepath_Join : list string -> string.
Variable yaml_Unmarshal : string -> Result (gmap string iface).
Variable provider_List : Result (list string).

Local Abbreviation read :=
  (Read Duration_String filepath_Join yaml_Unmarshal provider_List).
Local Abbreviation update :=
  (Update Duration_String filepath_Join yaml_Unmarshal).
Local Abbreviation populate :=
  (populateComputedValues Duration_String filepath_Join yaml_Unmarshal).

(** An extraction that ends without an error went through all three steps. *)
Lemma populateComputedValues_no_error
    (data : ClusterResourceModel.t) (diags : diag.Diagnostics) (w : World) :
  diag.HasError diags = false ->
  diag.HasError (snd (fst (populate data diags w))) = false ->
  exists kubeconfig homeDir doc,
    providerKubeConfig w (types.ValueString (ClusterResourceModel.Name data)) false
      = Ok kubeconfig
    /\ UserHomeDir w = Ok homeDir
    /\ yaml_Unmarshal kubeconfig = Ok doc.
Proof.
  intros Hno. unfold populateComputedValues. cbv zeta.
  cbn [providerKubeConfig UserHomeDir logCall].
  destruct (providerKubeConfig w _ false) as [kubeconfig|e].
  - destruct (UserHomeDir w) as [homeDir|e].
    + destruct (yaml_Unmarshal kubeconfig) as [doc|e] eqn:Hyaml.
      * intros _. by exists kubeconfig, homeDir, doc.
      * cbn [fst snd]. by rewrite HasError_AddError.
    + cbn [fst snd]. by rewrite HasError_AddError.
  - cbn [fst snd]. by rewrite HasError_AddError.
Qed.

(** X21.  [Read] drops the resource from the state exactly when the state
    decodes, the backend's listing succeeds and the cluster name is not in
    it, by exact comparison; it then adds no diagnostic and makes no call.
    A listing that fails keeps the state and reports "Failed to list
    clusters". *)
Theorem read_removes_state_iff (req : StateRequest) (w : World) :
  let name := types.ValueString (ClusterResourceModel.Name (RequestData req)) in
  let diags0 := diag.Append [] (RequestGetDiags req) in
  let '(resp, w') := read req w in
  (ResponseState resp = StateRemoved
   <-> diag.HasError diags0 = false
       /\ exists clusters, provider_List = Ok clusters /\ ~ In name clusters)
  /\ (ResponseState resp = StateRemoved ->
      ResponseDiagnostics resp = diags0 /\ w' = w)
  /\ (forall err,
        diag.HasError diags0 = false ->
        provider_List = Err err ->
        ResponseState resp = StateKept
        /\ ResponseDiagnostics resp
           = diags0 ++ [diag.Build diag.SeverityError "Failed to list clusters"
                          (Error Duration_String err)]
        /\ w' = w).
Proof.
  intros name diags0. unfold Read. cbv zeta. fold name. fold diags0.
  destruct (diag.HasError diags0) eqn:Hdec.
  { cbn [ResponseState]. split; [split; [discriminate | by intros [? _]]|].
    split; [discriminate | discriminate]. }
  destruct provider_List as [clusters|err] eqn:Hlist.
  - destruct (containsCluster clusters name) eqn:Hin; cbn [negb].
    + apply containsCluster_In in Hin.
      destruct (populate (RequestData req) diags0 w) as [[data1 diags1] w1].
      assert (forall st, st <> StateRemoved ->
                (st = StateRemoved
                 <-> false = false
                     /\ exists clusters0, Ok clusters = Ok clusters0
                                          /\ ~ In name clusters0)) as Hst.
      { intros st Hne. split; [by intros ->|].
        intros (_ & clusters0 & [= <-] & Hnot). by destruct Hnot. }
      destruct (diag.HasError diags1); cbn [ResponseState];
        (split; [by apply Hst|]; split; [discriminate | discriminate]).
    + cbn [ResponseState ResponseDiagnostics].
      split; [split; [intros _; split; [reflexivity|] | reflexivity]|].
      * exists clusters. split; [reflexivity|]. intros Hc.
        apply containsCluster_In in Hc. congruence.
      * split; [by intros _ | discriminate].
  - cbn [ResponseState ResponseDiagnostics].
    split; [split; [discriminate | by intros (_ & c & [=] & _)]|].
    split; [discriminate|]. intros err' _ [= <-].
    split; [reflexivity|]. split; [by apply AddError_fresh | reflexivity].
Qed.

(** X22.  [Read] is idempotent: when it stores a model, reading again from
    that model, in the world the first read left, stores the same model
    with the same diagnostics; only the query for the bundle is logged once
    more. *)
Theorem read_twice (req : StateRequest) (w : World)
    (resp : StateResponse) (w' : World) (data : ClusterResourceModel.t) :
  read req w = (resp, w') ->
  ResponseState resp = StateSet data ->
  read (BuildStateRequest data (RequestGetDiags req)) w'
  = (resp,
     logCall (CallProviderKubeConfig
                (types.ValueString (ClusterResourceModel.Name (RequestData req)))
                false) w').
Proof.
  unfold Read. cbv zeta. cbn [RequestData RequestGetDiags].
  destruct (diag.HasError (diag.Append [] (RequestGetDiags req))) eqn:Hdec.
  { intros [= <- <-] Hs. discriminate Hs. }
  destruct provider_List as [clusters|err]; [|intros [= <- <-] Hs; discriminate Hs].
  destruct (containsCluster clusters
              (types.ValueString (ClusterResourceModel.Name (RequestData req))))
    eqn:Hin; cbn [negb]; [|intros [= <- <-] Hs; discriminate Hs].
  pose proof (populateComputedValues_no_error (RequestData req)
                (diag.Append [] (RequestGetDiags req)) w Hdec) as Hok.
  destruct (populate (RequestData req) (diag.Append [] (RequestGetDiags req)) w)
    as [[data1 diags1] w1] eqn:Hpop.
  cbn [fst snd] in Hok.
  destruct (diag.HasError diags1) eqn:Herr; [intros [= <- <-] Hs; discriminate Hs|].
  destruct (Hok eq_refl) as (kubeconfig & homeDir & doc & Hkc & Hhome & Hyaml).
  rewrite (populateComputedValues_extracted Duration_String filepath_Join
             yaml_Unmarshal _ _ _ _ _ _ Hkc Hhome Hyaml) in Hpop.
  injection Hpop as <- <- <-.
  intros [= <- <-]. cbn [ResponseState]. intros [= <-].
  change (ClusterResourceModel.Name
            (extracted filepath_Join (RequestData req) kubeconfig homeDir doc))
    with (ClusterResourceModel.Name (RequestData req)).
  rewrite Hin. cbn [negb].
  erewrite populateComputedValues_extracted;
    [| cbn [providerKubeConfig logCall]; exact Hkc
     | cbn [UserHomeDir logCall]; exact Hhome
     | exact Hyaml].
  rewrite Herr, extracted_again. reflexivity.
Qed.

(** X23.  After an import, [Read] makes every computed field known: for a
    cluster the backend lists and a bundle that decodes, it stores a model
    whose identifier and name are the imported identifier and whose four
    derived fields are known strings, empty for those the bundle lacks. *)
Theorem read_after_import (id : string) (w : World) (clusters : list string)
    (kubeconfig homeDir : string) (doc : gmap string iface) :
  provider_List = Ok clusters ->
  In id clusters ->
  providerKubeConfig w id false = Ok kubeconfig ->
  UserHomeDir w = Ok homeDir ->
  yaml_Unmarshal kubeconfig = Ok doc ->
  exists data : ClusterResourceModel.t,
    read (BuildStateRequest (ImportState id) []) w
    = (BuildStateResponse [] (StateSet data),
       logCall (CallProviderKubeConfig id false) w)
    /\ ClusterResourceModel.ID data = types.StringValue id
    /\ ClusterResourceModel.Name data = types.StringValue id
    /\ ClusterResourceModel.Kubeconfig data = types.StringValue kubeconfig
    /\ (exists s, ClusterResourceModel.Endpoint data = types.StringValue s)
    /\ (exists s, ClusterResourceModel.ClusterCaCertificate data = types.StringValue s)
    /\ (exists s, ClusterResourceModel.ClientCertificate data = types.StringValue s)
    /\ (exists s, ClusterResourceModel.ClientKey data = types.StringValue s)
    /\ (firstEntry doc "users" "user" = None ->
        ClusterResourceModel.ClientCertificate data = types.StringValue ""
        /\ ClusterResourceModel.ClientKey data = types.StringValue "").
Proof.
  intros Hlist Hin Hkc Hhome Hyaml.
  exists (extracted filepath_Join (ImportState id) kubeconfig homeDir doc).
  assert (Hknown : forall info key,
            exists s, emptyIfNull (extractString info key types.StringNull)
                      = types.StringValue s).
  { intros info key. unfold extractString.
    destruct (info ≫= (fun m => asStr (mapIndex m key))); simpl; eauto. }
  split; [|repeat split; try apply Hknown].
  - unfold Read. cbv zeta. cbn [RequestData RequestGetDiags].
    change (diag.HasError (diag.Append [] [])) with false. cbv iota.
    rewrite Hlist. cbn [ImportState ClusterResourceModel.Name types.ValueString].
    rewrite (proj2 (containsCluster_In clusters id) Hin). cbn [negb].
    fold (ImportState id).
    erewrite populateComputedValues_extracted; [|exact Hkc|exact Hhome|exact Hyaml].
    reflexivity.
  - cbn. by rewrite H.
  - cbn. by rewrite H.
Qed.

(** X24.  [Update] is a refresh: for a cluster the backend lists it returns
    what [Read] returns on the same model, and in every case it makes no
    call but the query for the credential bundle. *)
Theorem update_is_refresh (req : StateRequest) (w : World) :
  let name := types.ValueString (ClusterResourceModel.Name (RequestData req)) in
  (forall clusters,
     provider_List = Ok clusters -> In name clusters ->
     update req w = read req w)
  /\ (log (snd (update req w)) = log w
      \/ log (snd (update req w)) = log w ++ [CallProviderKubeConfig name false]).
Proof.
  intros name. split.
  - intros clusters Hlist Hin. unfold Update, Read. cbv zeta. fold name.
    rewrite Hlist, (proj2 (containsCluster_In clusters name) Hin). reflexivity.
  - unfold Update. cbv zeta.
    destruct (diag.HasError (diag.Append [] (RequestGetDiags req))); [by left|].
    pose proof (populateComputedValues_world Duration_String filepath_Join
                  yaml_Unmarshal (RequestData req)
                  (diag.Append [] (RequestGetDiags req)) w) as Hw.
    destruct (populate (RequestData req) (diag.Append [] (RequestGetDiags req)) w)
      as [[data1 diags1] w1].
    cbn [snd] in Hw. subst w1. right.
    by destruct (diag.HasError diags1).
Qed.

(** X25.  The data source and the resource agree on what exists: on a
    listing that succeeds the data source returns the names in the
    backend's order, all known, under the fixed identifier, and [Read] of a
    resource whose state decodes drops it exactly when its name is none of
    them; on a listing that fails the data source returns the error and no
    model. *)
Theorem data_source_lists_what_read_keeps :
  (forall clusters,
     provider_List = Ok clusters ->
     exists model,
       ClustersDataSource_Read Duration_String provider_List = ([], Some model)
       /\ ClustersDataSourceModel.ID model = types.StringValue "kind-clusters"
       /\ map types.ValueString (ClustersDataSourceModel.Clusters model) = clusters
       /\ Forall (fun v => exists s, v = types.StringValue s)
            (ClustersDataSourceModel.Clusters model)
       /\ forall (req : StateRequest) (w : World),
            diag.HasError (diag.Append [] (RequestGetDiags req)) = false ->
            (ResponseState (fst (read req w)) = StateRemoved
             <-> ~ In (types.StringValue
                         (types.ValueString
                            (ClusterResourceModel.Name (RequestData req))))
                      (ClustersDataSourceModel.Clusters model)))
  /\ (forall err,
        provider_List = Err err ->
        ClustersDataSource_Read Duration_String provider_List
        = ([diag.Build diag.SeverityError "Failed to list clusters"
              (Error Duration_String err)], None)).
Proof.
  split.
  - intros clusters Hlist. eexists. unfold ClustersDataSource_Read.
    rewrite Hlist. split; [reflexivity|].
    cbn [ClustersDataSourceModel.ID ClustersDataSourceModel.Clusters].
    split; [reflexivity|]. split.
    { rewrite map_map. cbn [types.ValueString]. apply map_id. }
    split.
    { apply Forall_forall. intros v Hv.
      apply list_elem_of_In, in_map_iff in Hv. destruct Hv as (s & <- & _). eauto. }
    intros req w Hdec. unfold Read. cbv zeta. rewrite Hdec.
    set (name := types.ValueString (ClusterResourceModel.Name (RequestData req))).
    assert (Hmem : In (types.StringValue name) (map types.StringValue clusters)
                   <-> In name clusters).
    { rewrite in_map_iff. split; [by intros (s & [= ->] & Hs) | eauto]. }
    destruct (containsCluster clusters name) eqn:Hin; cbn [negb].
    + apply containsCluster_In in Hin.
      destruct (populate (RequestData req) (diag.Append [] (RequestGetDiags req)) w)
        as [[data1 diags1] w1].
      destruct (diag.HasError diags1); cbn [fst ResponseState];
        (split; [discriminate | intros Hnot; exfalso; apply Hnot, Hmem, Hin]).
    + cbn [fst ResponseState]. split; [|reflexivity]. intros _ Hc.
      apply Hmem, containsCluster_In in Hc. congruence.
  - intros err Hlist. unfold ClustersDataSource_Read. by rewrite Hlist.
Qed.

End ReadProperties.

Lemma read_removes_state_iff_witness :
  ResponseState
    (fst (Read secondsString joinSlash decodeFull (Ok ["kind"; "Dev"]) readRequest
            (worldFull (gateEnv None alwaysReady) ∅ 0)))
  = StateRemoved.
Proof.
  pose proof (read_removes_state_iff secondsString joinSlash decodeFull
                (Ok ["kind"; "Dev"]) readRequest
                (worldFull (gateEnv None alwaysReady) ∅ 0)) as H.
  destruct (Read secondsString joinSlash decodeFull (Ok ["kind"; "Dev"]) readRequest
              (worldFull (gateEnv None alwaysReady) ∅ 0)) as [resp w'].
  cbn [fst]. apply H. split; [reflexivity|].
  exists ["kind"; "Dev"]. split; [reflexivity|].
  intros [Hc|[Hc|[]]]; discriminate Hc.
Defined.

Lemma read_twice_witness :
  exists (resp : StateResponse) (w' : World) (data : ClusterResourceModel.t),
    Read secondsString joinSlash decodeFull (Ok ["dev"]) readRequest
      (worldFull (gateEnv None alwaysReady) ∅ 0) = (resp, w')
    /\ ResponseState resp = StateSet data
    /\ fst (Read secondsString joinSlash decodeFull (Ok ["dev"])
              (BuildStateRequest data []) w') = resp.
Proof.
  assert (Hr : Read secondsString joinSlash decodeFull (Ok ["dev"]) readRequest
                 (worldFull (gateEnv None alwaysReady) ∅ 0)
               = (BuildStateResponse []
                    (StateSet (extracted joinSlash staleModel kubeconfigFull
                                 "/home/dev" docFull)),
                  logCall (CallProviderKubeConfig "dev" false)
                    (worldFull (gateEnv None alwaysReady) ∅ 0)))
    by (vm_compute; reflexivity).
  eexists _, _, _. split; [exact Hr|]. split; [reflexivity|].
  exact (f_equal fst
           (read_twice secondsString joinSlash decodeFull (Ok ["dev"])
              readRequest _ _ _ _ Hr eq_refl)).
Defined.

Lemma read_after_import_witness :
  exists data : ClusterResourceModel.t,
    fst (Read secondsString joinSlash decodeSample (Ok ["dev"]) importRequest
           (sampleWorld None (Ok kubeconfigNoUsers) (gateEnv None alwaysReady) ∅ 0))
    = BuildStateResponse [] (StateSet data)
    /\ ClusterResourceModel.ClientKey data = types.StringValue "".
Proof.
  destruct (read_after_import secondsString joinSlash decodeSample (Ok ["dev"])
              "dev"
              (sampleWorld None (Ok kubeconfigNoUsers) (gateEnv None alwaysReady) ∅ 0)
              ["dev"] kubeconfigNoUsers "/home/dev" docNoUsers
              eq_refl ltac:(by left) eq_refl eq_refl eq_refl)
    as (data & Hr & _ & _ & _ & _ & _ & _ & _ & Hnull).
  exists data. split.
  - unfold importRequest. by rewrite Hr.
  - apply Hnull. reflexivity.
Defined.

Lemma update_is_refresh_witness :
  Update secondsString joinSlash decodeFull readRequest
    (worldFull (gateEnv None alwaysReady) ∅ 0)
  = Read secondsString joinSlash decodeFull (Ok ["kind"; "dev"]) readRequest
      (worldFull (gateEnv None alwaysReady) ∅ 0).
Proof.
  apply (proj1 (update_is_refresh secondsString joinSlash decodeFull
                  (Ok ["kind"; "dev"]) readRequest
                  (worldFull (gateEnv None alwaysReady) ∅ 0))
           ["kind"; "dev"] eq_refl).
  right. by left.
Defined.

Lemma data_source_lists_what_read_keeps_witness :
  exists model,
    ClustersDataSource_Read secondsString (Ok ["kind"; "dev"]) = ([], Some model)
    /\ map types.ValueString (ClustersDataSourceModel.Clusters model)
       = ["kind"; "dev"].
Proof.
  destruct (proj1 (data_source_lists_what_read_keeps secondsString joinSlash
                     decodeFull (Ok ["kind"; "dev"])) ["kind"; "dev"] eq_refl)
    as (model & Hr & _ & Hm & _).
  by exists model.
Defined.
